(** * tour-agent: the Streamlit chat front-end of [app.py]

    A shallow embedding of [app.py].  The script is one top-to-bottom
    program that Streamlit runs once per user interaction; it reads the
    process environment, provisions a remote connection and a remote agent
    (cached per process), keeps a transcript and a conversation id in
    [st.session_state], and relays one chat turn per run.

    The program is modelled as a computation over a [world] (session state,
    resource cache and the trace of observable effects) that either returns
    or leaves its normal path by an [interrupt].  The answers of the outside
    world (credential, management plane, agent service) are the fields of a
    [remote] record, one per call site of the script.

    Left out, as they decide nothing that follows: [load_dotenv] (the
    environment is taken as it is after it), the logging set-up, the page
    decoration of lines 24-26 and the spinner.  The constructors of the
    credential and of the clients, and [get_openai_client], are taken to
    return; the calls that reach the network may raise. *)

From stdpp Require Import base strings list gmap.

(** ** Data *)

(** A JSON value, as far as the dictionaries built by the script need it. *)
#[warnings="-register-all"]
Inductive json :=
| JString (s : string)
| JBool (b : bool)
| JObject (members : list (string * json)).

Fixpoint assoc (k : string) (ms : list (string * json)) : option json :=
  match ms with
  | [] => None
  | (k', v) :: rest => if String.eqb k k' then Some v else assoc k rest
  end.

(** [j[k]] for a JSON object. *)
Definition member (k : string) (j : json) : option json :=
  match j with
  | JObject ms => assoc k ms
  | _ => None
  end.

(** [j[k1][k2]...] *)
Fixpoint at_path (ks : list string) (j : json) : option json :=
  match ks with
  | [] => Some j
  | k :: rest =>
      match member k j with
      | Some j' => at_path rest j'
      | None => None
      end
  end.

(** One transcript entry, [{"role": ..., "content": ...}]. *)
Record message := Message { role : string; content : string }.

(** One event of the response stream; only [type] and [delta] are read. *)
Record event := Event { type : string; delta : option string }.

(** What iterating the stream yields: the events received, and the
    exception that ends the iteration early, if any. *)
Record stream := Stream { events : list event; failure : option string }.

Record MCPTool := {
  server_label : string;
  server_url : string;
  require_approval : string;
  allowed_tools : list string;
  project_connection_id : string
}.

Record PromptAgentDefinition := {
  model : string;
  instructions : string;
  tools : list MCPTool
}.

(** The object returned by [agents.create_version]. *)
Record AgentVersion := { name : string; version : string }.

Record AIProjectClient := { endpoint : string }.

(** The keyword arguments of [openai_client.responses.create]. *)
Record ResponsesRequest := {
  req_stream : bool;
  req_conversation : string;
  req_tool_choice : string;
  req_input : string;
  req_extra_body : json
}.

(** The module-level settings of lines 41-48. *)
Record Settings := {
  AZURE_SEARCH_ENDPOINT : string;
  KB_NAME : string;
  PROJECT_ENDPOINT : string;
  PROJECT_RESOURCE_ID : string;
  PROJECT_CONNECTION_NAME : string;
  AGENT_NAME : string;
  AGENT_MODEL : string;
  MCP_ENDPOINT : string
}.

(** [st.session_state]: a key that is not in it yet is [None]. *)
Record SessionState := {
  messages : option (list message);
  conversation_id : option string
}.

(** ** Effects *)

(** The observable actions of a run, in the order they happen. *)
Inductive effect :=
| LogInfo (msg : string)
| LogError (msg : string)
| StError (msg : string)
| StInfo (msg : string)
| StSuccess (msg : string)
| StHeader (msg : string)
| StWrite (msg : string)
| ChatMarkdown (who : string) (text : string)
| PlaceholderMarkdown (text : string)
| TokenRequest (scope : string)
| HttpPut (url : string) (headers : list (string * string)) (body : json)
| AgentsCreateVersion (agent_name : string) (definition : PromptAgentDefinition)
| ConversationsCreate
| ResponsesCreate (request : ResponsesRequest).

(** The calls that leave the process. *)
Definition is_network_call (e : effect) : bool :=
  match e with
  | TokenRequest _ | HttpPut _ _ _ | AgentsCreateVersion _ _
  | ConversationsCreate | ResponsesCreate _ => true
  | _ => false
  end.

Definition is_put (e : effect) : bool :=
  match e with HttpPut _ _ _ => true | _ => false end.

Definition is_responses_create (e : effect) : bool :=
  match e with ResponsesCreate _ => true | _ => false end.

(** The texts given to [response_placeholder.markdown], in order. *)
Fixpoint renders (t : list effect) : list string :=
  match t with
  | [] => []
  | PlaceholderMarkdown s :: rest => s :: renders rest
  | _ :: rest => renders rest
  end.

(** How a computation leaves its normal path.  [st.stop] and [st.rerun]
    raise Streamlit's script-control exceptions, which derive from
    [BaseException] and so pass through [except Exception]; every other
    failure is an [Exception], carried here as its [str(e)]. *)
Inductive interrupt :=
| StopException
| RerunException
| PyException (e : string).

Inductive result (A : Type) :=
| Ret (a : A)
| Exc (i : interrupt).
Arguments Ret {A} a.
Arguments Exc {A} i.

(** The replies of the outside world to the calls of one run: [inl e] is
    the call raising [e], [inr v] is it returning [v]. *)
Record remote := {
  token_reply : string + string;
  put_reply : string + unit;
  create_version_reply : string + AgentVersion;
  bootstrap_conversation_reply : string + string;
  responses_reply : string + stream;
  reset_conversation_reply : string + string
}.

Record world := World {
  session_state : SessionState;
  resource_cache : option (AIProjectClient * AgentVersion);
  trace : list effect
}.

(** ** The script monad *)

Definition M (A : Type) : Type := world → world * result A.

Global Instance M_ret : MRet M := λ A a w, (w, Ret a).

Global Instance M_bind : MBind M := λ A B f m w,
  match m w with
  | (w', Ret a) => f a w'
  | (w', Exc i) => (w', Exc i)
  end.

Definition raise {A} (i : interrupt) : M A := λ w, (w, Exc i).

Definition emit (e : effect) : M unit := λ w,
  (World (session_state w) (resource_cache w) (trace w ++ [e]), Ret ()).

Definition get_session : M SessionState := λ w, (w, Ret (session_state w)).

Definition put_session (s : SessionState) : M unit := λ w,
  (World s (resource_cache w) (trace w), Ret ()).

(** [try: body  except Exception as e: handler(e)] *)
Definition try_except {A} (body : M A) (handler : string → M A) : M A := λ w,
  match body w with
  | (w', Exc (PyException e)) => handler e w'
  | r => r
  end.

(** A remote call: the call is recorded, then it returns or raises. *)
Definition call {A} (e : effect) (reply : string + A) : M A :=
  emit e;;
  match reply with
  | inl err => raise (PyException err)
  | inr v => mret v
  end.

Definition st_stop {A} : M A := raise StopException.
Definition st_rerun {A} : M A := raise RerunException.

(** Python truthiness of an optional string: [None] and [""] are falsy. *)
Definition truthy (v : option string) : option string :=
  match v with
  | Some (String c s) => Some (String c s)
  | _ => None
  end.

(** ** 3. Settings (lines 31-52) *)

Definition get_required_env (environ : gmap string string) (key : string) : M string :=
  match truthy (environ !! key) with
  | Some value => mret value
  | None =>
      emit (StError ("❌ 필수 환경 변수가 설정되지 않았습니다: " +:+ key));;
      st_stop
  end.

Definition load_settings (environ : gmap string string) : M Settings :=
  try_except
    (search_endpoint ← get_required_env environ "AZURE_SEARCH_ENDPOINT";
     kb_name ← get_required_env environ "AZURE_SEARCH_KB_NAME";
     project_endpoint ← get_required_env environ "PROJECT_ENDPOINT";
     project_resource_id ← get_required_env environ "PROJECT_RESOURCE_ID";
     project_connection_name ← get_required_env environ "PROJECT_CONNECTION_NAME";
     agent_name ← get_required_env environ "AGENT_NAME";
     agent_model ← get_required_env environ "AGENT_MODEL";
     mret {| AZURE_SEARCH_ENDPOINT := search_endpoint;
             KB_NAME := kb_name;
             PROJECT_ENDPOINT := project_endpoint;
             PROJECT_RESOURCE_ID := project_resource_id;
             PROJECT_CONNECTION_NAME := project_connection_name;
             AGENT_NAME := agent_name;
             AGENT_MODEL := agent_model;
             MCP_ENDPOINT :=
               search_endpoint +:+ "/knowledgebases/" +:+ kb_name
               +:+ "/mcp?api-version=2025-11-01-preview" |})
    (λ e,
       emit (LogError ("환경 변수 로드 실패: " +:+ e));;
       emit (StError ("환경 변수 설정 오류: " +:+ e));;
       st_stop).

(** ** 4. Backend resources (lines 57-122) *)

Definition instructions_text : string :=
  "
        너는 여행 전문 AI 에이전트야. 반드시 연결된 지식 기반 touragent 를 기반으로 응답해줘.
        혼자 생각해서 생성하지 말고, 항상 응답에 참조한 데이터를 언급해줘. 모르면 모른다고 답변해줘.
        ".

(** The dictionary [body] of lines 71-82. *)
Definition connection_body (cfg : Settings) : json :=
  JObject
    [ ("name", JString (PROJECT_CONNECTION_NAME cfg));
      ("type", JString "Microsoft.MachineLearningServices/workspaces/connections");
      ("properties",
        JObject
          [ ("authType", JString "ProjectManagedIdentity");
            ("category", JString "RemoteTool");
            ("target", JString (MCP_ENDPOINT cfg));
            ("isSharedToAll", JBool true);
            ("audience", JString "https://search.azure.com/");
            ("metadata", JObject [("ApiType", JString "Azure")]) ]) ].

Definition conn_url (cfg : Settings) : string :=
  "https://management.azure.com" +:+ PROJECT_RESOURCE_ID cfg
  +:+ "/connections/" +:+ PROJECT_CONNECTION_NAME cfg
  +:+ "?api-version=2025-10-01-preview".

Definition mcp_kb_tool (cfg : Settings) : MCPTool :=
  {| server_label := "knowledge-base";
     server_url := MCP_ENDPOINT cfg;
     require_approval := "never";
     allowed_tools := ["knowledge_base_retrieve"];
     project_connection_id := PROJECT_CONNECTION_NAME cfg |}.

(** The body of [initialize_agent].  The credential and the token provider
    are one call ([token_reply]); [requests.put] and [raise_for_status] are
    one call ([put_reply]): the request is issued, then it succeeds or the
    pair raises. *)
Definition initialize_agent (cfg : Settings) (rem : remote)
  : M (AIProjectClient * AgentVersion) :=
  try_except
    (emit (LogInfo "Azure 인증 성공");;
     token ← call (TokenRequest "https://management.azure.com/.default") (token_reply rem);
     let headers := [("Authorization", "Bearer " +:+ token)] in
     let body := connection_body cfg in
     call (HttpPut (conn_url cfg) headers body) (put_reply rem);;
     emit (LogInfo "Project Connection 설정 완료");;
     let project_client := {| endpoint := PROJECT_ENDPOINT cfg |} in
     agent ← call
       (AgentsCreateVersion (AGENT_NAME cfg)
          {| model := AGENT_MODEL cfg;
             instructions := instructions_text;
             tools := [mcp_kb_tool cfg] |})
       (create_version_reply rem);
     emit (LogInfo ("에이전트 생성 완료: " +:+ name agent));;
     mret (project_client, agent))
    (λ e,
       emit (LogError ("에이전트 초기화 실패: " +:+ e));;
       raise (PyException e)).

(** [@st.cache_resource]: the body runs when nothing is cached, and its
    value is cached when it returns. *)
Definition cache_resource (body : M (AIProjectClient * AgentVersion))
  : M (AIProjectClient * AgentVersion) := λ w,
  match resource_cache w with
  | Some r => (w, Ret r)
  | None =>
      match body w with
      | (w', Ret r) => (World (session_state w') (Some r) (trace w'), Ret r)
      | (w', Exc i) => (w', Exc i)
      end
  end.

(** ** 5. Loading the agent (lines 127-135) *)

Definition load_agent (cfg : Settings) (rem : remote)
  : M (AIProjectClient * AgentVersion) :=
  try_except
    (r ← cache_resource (initialize_agent cfg rem);
     emit (StSuccess "✅ 에이전트 준비 완료!");;
     mret r)
    (λ e,
       emit (StError ("❌ 에이전트 초기화 실패: " +:+ e));;
       emit (StInfo "💡 Azure Portal에서 Web App의 Managed Identity가 활성화되어 있는지 확인하세요.");;
       st_stop).

(** ** 6. Session state (lines 140-149) *)

Definition set_messages (ms : list message) : M unit :=
  s ← get_session;
  put_session {| messages := Some ms; conversation_id := conversation_id s |}.

Definition set_conversation_id (cid : string) : M unit :=
  s ← get_session;
  put_session {| messages := messages s; conversation_id := Some cid |}.

Definition init_session (rem : remote) : M unit :=
  s ← get_session;
  (if messages s is None then set_messages [] else mret ());;
  s ← get_session;
  if conversation_id s is None then
    try_except
      (conv_id ← call ConversationsCreate (bootstrap_conversation_reply rem);
       set_conversation_id conv_id)
      (λ e, emit (StError ("대화 세션 생성 실패: " +:+ e));; st_stop)
  else mret ().

(** Reading an attribute of [st.session_state] that is not set raises. *)
Definition read_messages : M (list message) :=
  s ← get_session;
  match messages s with
  | Some ms => mret ms
  | None => raise (PyException "st.session_state has no attribute 'messages'")
  end.

Definition read_conversation_id : M string :=
  s ← get_session;
  match conversation_id s with
  | Some cid => mret cid
  | None => raise (PyException "st.session_state has no attribute 'conversation_id'")
  end.

(** [st.session_state.messages.append(m)] *)
Definition append_message (m : message) : M unit :=
  ms ← read_messages;
  set_messages (ms ++ [m]).

(** ** 7. Showing the transcript (lines 154-156) *)

Fixpoint show_each (ms : list message) : M unit :=
  match ms with
  | [] => mret ()
  | m :: rest => emit (ChatMarkdown (role m) (content m));; show_each rest
  end.

Definition show_history : M unit :=
  ms ← read_messages;
  show_each ms.

(** ** 8. The chat turn (lines 161-199) *)

Definition cursor : string := "▌".

(** The loop of lines 187-192 over the events received, threading
    [full_response]. *)
Fixpoint consume (evs : list event) (full_response : string) : M string :=
  match evs with
  | [] => mret full_response
  | ev :: rest =>
      if String.eqb (type ev) "response.output_text.delta" then
        let full_response := full_response +:+ default "" (delta ev) in
        emit (PlaceholderMarkdown (full_response +:+ cursor));;
        consume rest full_response
      else if String.eqb (type ev) "response.completed" then
        emit (PlaceholderMarkdown full_response);;
        consume rest full_response
      else consume rest full_response
  end.

(** [for event in stream: ...]: the events, then the stream's failure. *)
Definition for_event_in (st : stream) (full_response : string) : M string :=
  full_response ← consume (events st) full_response;
  match failure st with
  | Some e => raise (PyException e)
  | None => mret full_response
  end.

Definition agent_reference (agent : AgentVersion) : json :=
  JObject [("agent", JObject [("name", JString (name agent));
                              ("type", JString "agent_reference")])].

Definition chat_turn (agent : AgentVersion) (chat_input : option string)
    (rem : remote) : M unit :=
  match truthy chat_input with
  | None => mret ()
  | Some prompt =>
      append_message {| role := "user"; content := prompt |};;
      emit (ChatMarkdown "user" prompt);;
      let full_response := "" in
      try_except
        (cid ← read_conversation_id;
         st ← call
           (ResponsesCreate
              {| req_stream := true;
                 req_conversation := cid;
                 req_tool_choice := "required";
                 req_input := prompt;
                 req_extra_body := agent_reference agent |})
           (responses_reply rem);
         full_response ← for_event_in st full_response;
         append_message {| role := "assistant"; content := full_response |})
        (λ e,
           emit (LogError ("응답 생성 실패: " +:+ e));;
           emit (StError ("응답 생성 중 오류가 발생했습니다: " +:+ e)))
  end.

(** ** 9. The sidebar (lines 204-213) *)

Definition sidebar (cfg : Settings) (reset_button : bool) (rem : remote) : M unit :=
  emit (StHeader "ℹ️ 정보");;
  emit (StWrite ("**에이전트**: " +:+ AGENT_NAME cfg));;
  emit (StWrite ("**모델**: " +:+ AGENT_MODEL cfg));;
  if reset_button then
    set_messages [];;
    conv_id ← call ConversationsCreate (reset_conversation_reply rem);
    set_conversation_id conv_id;;
    st_rerun
  else mret ().

(** ** The whole script *)

(** What the widgets return in one run. *)
Record ui_input := { chat_input : option string; reset_button : bool }.

Definition script (environ : gmap string string) (ui : ui_input) (rem : remote)
  : M unit :=
  cfg ← load_settings environ;
  r ← load_agent cfg rem;
  init_session rem;;
  show_history;;
  chat_turn r.2 (chat_input ui) rem;;
  sidebar cfg (reset_button ui) rem.

(** The run that [st.rerun] starts: no widget fires in it. *)
Definition no_input : ui_input := {| chat_input := None; reset_button := false |}.

(** One user interaction: the run it triggers, followed by the rerun when
    the run asked for one ([rem'] answers the calls of the rerun). *)
Definition interaction (environ : gmap string string) (ui : ui_input)
    (rem rem' : remote) : M unit := λ w,
  match script environ ui rem w with
  | (w', Exc RerunException) => script environ no_input rem' w'
  | r => r
  end.

(** ** The loop as the specification words it *)

Definition is_delta (ev : event) : bool :=
  String.eqb (type ev) "response.output_text.delta".

Definition is_completed (ev : event) : bool :=
  String.eqb (type ev) "response.completed".

(** The text fragment an event contributes: a delta's text, else nothing. *)
Definition fragment (ev : event) : string :=
  if is_delta ev then default "" (delta ev) else "".

(** The fragments of the events received, concatenated in arrival order. *)
Definition accumulated (evs : list event) : string :=
  foldr (λ ev rest, fragment ev +:+ rest) "" evs.

(** The render that the [i]-th event of [evs] causes: for a delta the text
    accumulated up to and including it followed by the cursor marker, for a
    completed event that text alone, for any other event none. *)
Definition render_at (evs : list event) (i : nat) : option string :=
  match evs !! i with
  | Some ev =>
      if is_delta ev then Some (accumulated (take (S i) evs) +:+ cursor)
      else if is_completed ev then Some (accumulated (take (S i) evs))
      else None
  | None => None
  end.

Definition renders_in_arrival_order (evs : list event) : list string :=
  omap (render_at evs) (seq 0 (length evs)).

(** ** Executions of several turns *)

(** A turn is the utterance and the replies of the outside world to it. *)
Fixpoint run_turns (agent : AgentVersion) (turns : list (string * remote)) : M unit :=
  match turns with
  | [] => mret ()
  | (prompt, rem) :: rest =>
      chat_turn agent (Some prompt) rem;;
      run_turns agent rest
  end.

(** The same turns as whole runs of the script, one utterance per run and
    the reset button never pressed; each run starts in the world the run
    before left, however that run ended. *)
Fixpoint run_session (environ : gmap string string)
    (turns : list (string * remote)) (w : world) : world :=
  match turns with
  | [] => w
  | (prompt, rem) :: rest =>
      run_session environ rest
        (script environ {| chat_input := Some prompt; reset_button := false |} rem w).1
  end.

(** The stream of a turn completes without error. *)
Definition completes (rem : remote) : Prop :=
  ∃ evs, responses_reply rem = inr (Stream evs None).

(** The streaming call raises, or the stream raises while it is consumed. *)
Definition turn_fails (rem : remote) (e : string) : Prop :=
  responses_reply rem = inl e ∨ ∃ evs, responses_reply rem = inr (Stream evs (Some e)).

(** A key of the environment holds a non-empty value. *)
Definition populated (environ : gmap string string) (key value : string) : Prop :=
  environ !! key = Some value ∧ value ≠ "".

(** A key of the environment is absent or empty. *)
Definition missing (environ : gmap string string) (key : string) : Prop :=
  environ !! key = None ∨ environ !! key = Some "".

Definition required_keys : list string :=
  [ "AZURE_SEARCH_ENDPOINT"; "AZURE_SEARCH_KB_NAME"; "PROJECT_ENDPOINT";
    "PROJECT_RESOURCE_ID"; "PROJECT_CONNECTION_NAME"; "AGENT_NAME"; "AGENT_MODEL" ].

(** What section 7 shows for a transcript. *)
Definition history (ms : list message) : list effect :=
  (λ m, ChatMarkdown (role m) (content m)) <$> ms.

(** A session whose transcript and conversation id are both set, as
    section 6 of the script leaves it. *)
Definition session (ms : list message) (cid : string) : SessionState :=
  {| messages := Some ms; conversation_id := Some cid |}.

Definition user_says (prompt : string) : message :=
  {| role := "user"; content := prompt |}.

Definition assistant_says (text : string) : message :=
  {| role := "assistant"; content := text |}.

(** The request of lines 174-185 for a given conversation and utterance. *)
Definition turn_request (agent : AgentVersion) (cid prompt : string) : ResponsesRequest :=
  {| req_stream := true;
     req_conversation := cid;
     req_tool_choice := "required";
     req_input := prompt;
     req_extra_body := agent_reference agent |}.

(** What the handler of lines 197-199 shows for an exception. *)
Definition turn_error_report (e : string) : list effect :=
  [ LogError ("응답 생성 실패: " +:+ e);
    StError ("응답 생성 중 오류가 발생했습니다: " +:+ e) ].

Definition delta_event (text : string) : event :=
  {| type := "response.output_text.delta"; delta := Some text |}.

Definition completed_event : event :=
  {| type := "response.completed"; delta := None |}.

(** The stream of the turn-ordering example. *)
Definition paris_events : list event :=
  [delta_event "Par"; delta_event "is"; delta_event " is lovely"; completed_event].

(** A successful turn: a non-empty utterance and a stream that completes. *)
Definition successful_turn (t : string * remote) : Prop :=
  t.1 ≠ "" ∧ completes t.2.

(** The text a turn's stream accumulates. *)
Definition reply_text (rem : remote) : string :=
  match responses_reply rem with
  | inr st => accumulated (events st)
  | inl _ => ""
  end.

(** The entries that a sequence of successful turns commits. *)
Definition transcript_of (turns : list (string * remote)) : list message :=
  flat_map (λ t, [user_says t.1; assistant_says (reply_text t.2)]) turns.

(** The bodies of the PUT requests of a trace, in order. *)
Fixpoint put_bodies (t : list effect) : list json :=
  match t with
  | [] => []
  | HttpPut _ _ body :: rest => body :: put_bodies rest
  | _ :: rest => put_bodies rest
  end.

(** ** Sample inputs *)

Definition sample_agent : AgentVersion := {| name := "tour-agent"; version := "1" |}.

(** Replies of a healthy service, with the given reply to the streaming call. *)
Definition sample_remote (reply : string + stream) : remote :=
  {| token_reply := inr "token";
     put_reply := inr ();
     create_version_reply := inr sample_agent;
     bootstrap_conversation_reply := inr "conv_1";
     responses_reply := reply;
     reset_conversation_reply := inr "conv_2" |}.

Definition sample_environ : gmap string string :=
  list_to_map
    [ ("AZURE_SEARCH_ENDPOINT", "https://search.example.net");
      ("AZURE_SEARCH_KB_NAME", "touragent");
      ("PROJECT_ENDPOINT", "https://project.example.net");
      ("PROJECT_RESOURCE_ID", "/subscriptions/s/resourceGroups/g/projects/p");
      ("PROJECT_CONNECTION_NAME", "kb-connection");
      ("AGENT_NAME", "tour-agent");
      ("AGENT_MODEL", "gpt-4o") ].

Definition sample_settings : Settings :=
  {| AZURE_SEARCH_ENDPOINT := "https://search.example.net";
     KB_NAME := "touragent";
     PROJECT_ENDPOINT := "https://project.example.net";
     PROJECT_RESOURCE_ID := "/subscriptions/s/resourceGroups/g/projects/p";
     PROJECT_CONNECTION_NAME := "kb-connection";
     AGENT_NAME := "tour-agent";
     AGENT_MODEL := "gpt-4o";
     MCP_ENDPOINT :=
       "https://search.example.net/knowledgebases/touragent/mcp?api-version=2025-11-01-preview" |}.

(** A service that mints another token and fails every other call. *)
Definition failing_remote : remote :=
  {| token_reply := inr "another token";
     put_reply := inl "409 Conflict";
     create_version_reply := inl "503 Service Unavailable";
     bootstrap_conversation_reply := inl "503 Service Unavailable";
     responses_reply := inl "503 Service Unavailable";
     reset_conversation_reply := inl "503 Service Unavailable" |}.

(** The message of [get_required_env] for a key. *)
Definition missing_key_message (key : string) : string :=
  "❌ 필수 환경 변수가 설정되지 않았습니다: " +:+ key.

(** ** Further vocabulary for the properties *)

(** The calls of the provisioning of lines 62-115. *)
Definition is_provisioning_call (e : effect) : bool :=
  match e with
  | TokenRequest _ | HttpPut _ _ _ | AgentsCreateVersion _ _ => true
  | _ => false
  end.

Definition is_create_version (e : effect) : bool :=
  match e with AgentsCreateVersion _ _ => true | _ => false end.

Definition is_conversations_create (e : effect) : bool :=
  match e with ConversationsCreate => true | _ => false end.

(** The entries shown by [st.chat_message(role)] / [st.markdown], in order. *)
Fixpoint chat_markdowns (t : list effect) : list message :=
  match t with
  | [] => []
  | ChatMarkdown who text :: rest => {| role := who; content := text |} :: chat_markdowns rest
  | _ :: rest => chat_markdowns rest
  end.

(** The events the loop of lines 187-192 reacts to. *)
Definition relevant (ev : event) : bool := is_delta ev || is_completed ev.

(** Provisioning raises [e]: at the token, at the PUT, or at the creation
    of the agent version. *)
Definition provisioning_fails (rem : remote) (e : string) : Prop :=
  token_reply rem = inl e
  ∨ (∃ tok, token_reply rem = inr tok ∧ put_reply rem = inl e)
  ∨ (∃ tok, token_reply rem = inr tok ∧ put_reply rem = inr ()
            ∧ create_version_reply rem = inl e).

(** Provisioning returns [agent]. *)
Definition provisioning_returns (rem : remote) (agent : AgentVersion) : Prop :=
  (∃ tok, token_reply rem = inr tok) ∧ put_reply rem = inr ()
  ∧ create_version_reply rem = inr agent.

(** A session in which nothing is set yet. *)
Definition fresh_session : SessionState :=
  {| messages := None; conversation_id := None |}.

(** Sections 6 to 9 of the script, which run once the settings and the
    agent are loaded. *)
Definition widgets (cfg : Settings) (agent : AgentVersion) (ui : ui_input)
    (rem : remote) : M unit :=
  init_session rem;;
  show_history;;
  chat_turn agent (chat_input ui) rem;;
  sidebar cfg (reset_button ui) rem.

(** Symbolic execution of the monadic primitives. *)
Ltac run :=
  repeat (cbn -[String.append] ||
          unfold mbind, mret, M_bind, M_ret, raise, emit, call, get_session,
            put_session, try_except, st_stop, st_rerun, set_messages,
            set_conversation_id, read_messages, read_conversation_id,
            append_message).

(** * Properties *)

(** ** The script on the sample inputs *)

(** A first run with an utterance, from a fresh process and a fresh
    session: the agent is provisioned and cached, the session is
    bootstrapped and the turn is committed. *)
Example first_run_of_a_fresh_session :
  let w' :=
    (script sample_environ {| chat_input := Some "Where to?"; reset_button := false |}
       (sample_remote (inr (Stream paris_events None)))
       (World {| messages := None; conversation_id := None |} None [])).1 in
  session_state w' =
    session [user_says "Where to?"; assistant_says "Paris is lovely"] "conv_1"
  ∧ resource_cache w' =
      Some ({| endpoint := "https://project.example.net" |}, sample_agent)
  ∧ renders (trace w') = ["Par▌"; "Paris▌"; "Paris is lovely▌"; "Paris is lovely"]
  ∧ put_bodies (trace w') = [connection_body sample_settings]
  ∧ length (List.filter is_network_call (trace w')) = 5.
Proof. vm_compute. repeat split. Qed.

(** The same run when the management plane rejects the PUT: the run stops
    before the session is touched, and nothing is cached. *)
Example first_run_with_rejected_put :
  script sample_environ {| chat_input := None; reset_button := false |} failing_remote
    (World {| messages := None; conversation_id := None |} None []) =
    (World {| messages := None; conversation_id := None |} None
       [ LogInfo "Azure 인증 성공";
         TokenRequest "https://management.azure.com/.default";
         HttpPut (conn_url sample_settings) [("Authorization", "Bearer another token")]
           (connection_body sample_settings);
         LogError "에이전트 초기화 실패: 409 Conflict";
         StError "❌ 에이전트 초기화 실패: 409 Conflict";
         StInfo "💡 Azure Portal에서 Web App의 Managed Identity가 활성화되어 있는지 확인하세요." ],
     Exc StopException).
Proof. vm_compute. reflexivity. Qed.

(** ** Strings and traces *)

Lemma string_app_assoc (a b c : string) : (a +:+ b) +:+ c = a +:+ (b +:+ c).
Proof.
  induction a as [|ch a IH]; [reflexivity|].
  change (String ch ((a +:+ b) +:+ c) = String ch (a +:+ (b +:+ c))).
  by rewrite IH.
Qed.

Lemma string_app_empty_r (a : string) : a +:+ "" = a.
Proof.
  induction a as [|ch a IH]; [reflexivity|].
  change (String ch (a +:+ "") = String ch a). by rewrite IH.
Qed.

Lemma truthy_nonempty (s : string) : s ≠ "" → truthy (Some s) = Some s.
Proof. by destruct s. Qed.

Lemma truthy_populated environ key value :
  populated environ key value → truthy (environ !! key) = Some value.
Proof. intros [-> Hne]. by apply truthy_nonempty. Qed.

Lemma truthy_missing environ key : missing environ key → truthy (environ !! key) = None.
Proof. by intros [-> | ->]. Qed.

Lemma renders_app (t1 t2 : list effect) : renders (t1 ++ t2) = renders t1 ++ renders t2.
Proof.
  induction t1 as [|e t1 IH]; [reflexivity|].
  destruct e; cbn; by rewrite ?IH.
Qed.

Lemma renders_placeholders (rs : list string) : renders (PlaceholderMarkdown <$> rs) = rs.
Proof. induction rs as [|r rs IH]; [reflexivity|]. cbn. by rewrite IH. Qed.

Lemma accumulated_snoc (pre : list event) (ev : event) :
  accumulated (pre ++ [ev]) = accumulated pre +:+ fragment ev.
Proof.
  induction pre as [|x pre IH]; cbn.
  - by rewrite string_app_empty_r.
  - unfold accumulated in IH. by rewrite IH, string_app_assoc.
Qed.

Lemma omap_cons {A B} (f : A → option B) (x : A) (l : list A) :
  omap f (x :: l) = match f x with Some y => y :: omap f l | None => omap f l end.
Proof. reflexivity. Qed.

Lemma is_completed_not_delta (ev : event) : is_completed ev = true → is_delta ev = false.
Proof.
  unfold is_completed, is_delta. intros H%String.eqb_eq. by rewrite H.
Qed.

(** ** The event loop *)


(** The loop started after the events [pre] (so with their accumulated text
    in [full_response]) renders what the events [evs] cause, in order, and
    returns the text accumulated over all of them. *)
Lemma consume_run (evs pre : list event) (w : world) :
  consume evs (accumulated pre) w =
    (World (session_state w) (resource_cache w)
       (trace w ++ (PlaceholderMarkdown <$>
                      omap (render_at (pre ++ evs)) (seq (length pre) (length evs)))),
     Ret (accumulated (pre ++ evs))).
Proof.
  revert pre w. induction evs as [|ev evs IH]; intros pre w.
  - cbn. rewrite !app_nil_r. by destruct w.
  - assert (Hlook : (pre ++ ev :: evs) !! length pre = Some ev)
      by (by rewrite lookup_app_r, Nat.sub_diag by lia).
    assert (Htake : take (S (length pre)) (pre ++ ev :: evs) = pre ++ [ev]).
    { rewrite take_app_ge by lia.
      replace (S (length pre) - length pre) with 1 by lia. done. }
    assert (Hrest : (pre ++ [ev]) ++ evs = pre ++ ev :: evs) by (by rewrite <- app_assoc).
    assert (Hlen : length (pre ++ [ev]) = S (length pre))
      by (rewrite length_app; cbn; lia).
    cbn [consume length seq]. rewrite (omap_cons (render_at (pre ++ ev :: evs))).
    unfold render_at at 1. rewrite Hlook, Htake.
    fold (is_delta ev). fold (is_completed ev).
    specialize (IH (pre ++ [ev])). rewrite Hrest, Hlen, accumulated_snoc in IH.
    rewrite accumulated_snoc. unfold fragment in *.
    destruct (is_delta ev) eqn:Hd.
    + run. rewrite IH. run. by rewrite <- app_assoc.
    + rewrite string_app_empty_r in *.
      destruct (is_completed ev) eqn:Hc.
      * run. rewrite IH. run. by rewrite <- app_assoc.
      * by rewrite IH.
Qed.

Lemma consume_from_start (evs : list event) (w : world) :
  consume evs "" w =
    (World (session_state w) (resource_cache w)
       (trace w ++ (PlaceholderMarkdown <$> renders_in_arrival_order evs)),
     Ret (accumulated evs)).
Proof. apply (consume_run evs [] w). Qed.

(** ** One chat turn *)

Section chat_turn.
Context (agent : AgentVersion) (prompt : string) (ms : list message)
  (cid : string) (cache : option (AIProjectClient * AgentVersion))
  (t0 : list effect) (rem : remote).
Hypothesis prompt_nonempty : prompt ≠ "".

Local Abbreviation w0 := (World (session ms cid) cache t0).
Local Abbreviation opening :=
  [ChatMarkdown "user" prompt; ResponsesCreate (turn_request agent cid prompt)].

(** The stream completes: the assistant entry is committed. *)
Lemma chat_turn_completes (evs : list event) :
  responses_reply rem = inr (Stream evs None) →
  chat_turn agent (Some prompt) rem w0 =
    (World (session (ms ++ [user_says prompt; assistant_says (accumulated evs)]) cid)
       cache
       (t0 ++ opening ++ (PlaceholderMarkdown <$> renders_in_arrival_order evs)),
     Ret ()).
Proof.
  intros Hreply. unfold chat_turn, for_event_in.
  rewrite (truthy_nonempty _ prompt_nonempty). run. rewrite Hreply. run.
  rewrite consume_from_start. run. unfold session.
  by rewrite <- !app_assoc.
Qed.

(** The stream raises while it is consumed: the handler reports it. *)
Lemma chat_turn_stream_raises (evs : list event) (e : string) :
  responses_reply rem = inr (Stream evs (Some e)) →
  chat_turn agent (Some prompt) rem w0 =
    (World (session (ms ++ [user_says prompt]) cid) cache
       (t0 ++ opening ++ (PlaceholderMarkdown <$> renders_in_arrival_order evs)
           ++ turn_error_report e),
     Ret ()).
Proof.
  intros Hreply. unfold chat_turn, for_event_in.
  rewrite (truthy_nonempty _ prompt_nonempty). run. rewrite Hreply. run.
  rewrite consume_from_start. run. unfold session, turn_error_report.
  by rewrite <- !app_assoc.
Qed.

(** The streaming call itself raises. *)
Lemma chat_turn_call_raises (e : string) :
  responses_reply rem = inl e →
  chat_turn agent (Some prompt) rem w0 =
    (World (session (ms ++ [user_says prompt]) cid) cache
       (t0 ++ opening ++ turn_error_report e),
     Ret ()).
Proof.
  intros Hreply. unfold chat_turn.
  rewrite (truthy_nonempty _ prompt_nonempty). run. rewrite Hreply. run.
  unfold session, turn_error_report. by rewrite <- !app_assoc.
Qed.
End chat_turn.

Lemma no_request_in_renders (rs : list string) :
  List.filter is_responses_create (PlaceholderMarkdown <$> rs) = [].
Proof. induction rs as [|r rs IH]; [reflexivity|]. cbn. exact IH. Qed.

Lemma omap_seq_ext {B} (f g : nat → option B) (a n : nat) :
  (∀ i, a ≤ i < a + n → f i = g i) → omap f (seq a n) = omap g (seq a n).
Proof.
  revert a. induction n as [|n IH]; intros a Hfg; [reflexivity|].
  cbn [seq]. rewrite !omap_cons, (Hfg a) by lia.
  rewrite (IH (S a)) by (intros i Hi; apply Hfg; lia). done.
Qed.

Lemma render_at_app_l (pre evs : list event) (i : nat) :
  i < length pre → render_at (pre ++ evs) i = render_at pre i.
Proof.
  intros Hi. unfold render_at.
  by rewrite lookup_app_l, take_app_le by lia.
Qed.

(** A completed event at the end of the stream renders, last, the text
    accumulated over the whole stream. *)
Lemma renders_snoc_completed (pre : list event) (ev : event) :
  is_completed ev = true →
  renders_in_arrival_order (pre ++ [ev]) =
    renders_in_arrival_order pre ++ [accumulated (pre ++ [ev])].
Proof.
  intros Hc. unfold renders_in_arrival_order.
  rewrite length_app. cbn [length]. rewrite seq_app, omap_app. cbn [seq Nat.add].
  f_equal.
  - apply omap_seq_ext. intros i Hi. apply render_at_app_l. lia.
  - rewrite omap_cons. unfold render_at.
    rewrite lookup_app_r, Nat.sub_diag by lia. cbn [lookup list_lookup].
    rewrite (is_completed_not_delta _ Hc), Hc.
    rewrite take_app_ge by lia.
    replace (S (length pre) - length pre) with 1 by lia. done.
Qed.

(** ** Properties of the chat turn *)

(** C1. The deltas of a turn are rendered in arrival order, each render
    being the concatenation of the fragments received so far: a delta shows
    that text followed by the cursor marker, a completed event shows it
    alone.  For the stream "Par", "is", " is lovely", completed the renders
    are "Par", "Paris", "Paris is lovely" (each with the cursor marker) and
    then the settled "Paris is lovely" without it; the assistant entry
    committed after the stream is the accumulated text, which is the text
    rendered at completion when the stream ends with its completed event. *)
Theorem deltas_rendered_in_arrival_order
    (agent : AgentVersion) (prompt : string) (ms : list message) (cid : string)
    (cache : option (AIProjectClient * AgentVersion)) (t0 : list effect)
    (rem : remote) (evs : list event) :
  prompt ≠ "" →
  responses_reply rem = inr (Stream evs None) →
  ∃ w',
    chat_turn agent (Some prompt) rem (World (session ms cid) cache t0) = (w', Ret ())
    ∧ renders (trace w') = renders t0 ++ renders_in_arrival_order evs
    ∧ messages (session_state w') =
        Some (ms ++ [user_says prompt; assistant_says (accumulated evs)])
    ∧ (∀ pre done, evs = pre ++ [done] → is_completed done = true →
         last (renders (trace w')) = Some (accumulated evs))
    ∧ renders_in_arrival_order paris_events =
        ["Par" +:+ cursor; "Paris" +:+ cursor; "Paris is lovely" +:+ cursor;
         "Paris is lovely"]
    ∧ accumulated paris_events = "Paris is lovely".
Proof.
  intros Hp Hreply. eexists. split; [by apply chat_turn_completes|].
  cbn [trace session_state messages session].
  assert (Hr : renders (t0 ++ [ChatMarkdown "user" prompt;
                        ResponsesCreate (turn_request agent cid prompt)] ++
                        (PlaceholderMarkdown <$> renders_in_arrival_order evs))
               = renders t0 ++ renders_in_arrival_order evs).
  { rewrite !renders_app, renders_placeholders. reflexivity. }
  rewrite Hr. repeat split.
  intros pre done -> Hc.
  by rewrite renders_snoc_completed, !app_assoc, last_snoc.
Qed.

Lemma deltas_rendered_in_arrival_order_witness :
  ∃ w',
    chat_turn sample_agent (Some "Where to?")
      (sample_remote (inr (Stream paris_events None)))
      (World (session [] "conv_1") None []) = (w', Ret ())
    ∧ renders (trace w') = ["Par▌"; "Paris▌"; "Paris is lovely▌"; "Paris is lovely"]
    ∧ messages (session_state w') =
        Some [user_says "Where to?"; assistant_says "Paris is lovely"]
    ∧ last (renders (trace w')) = Some "Paris is lovely".
Proof.
  destruct (deltas_rendered_in_arrival_order
              sample_agent "Where to?" [] "conv_1" None []
              (sample_remote (inr (Stream paris_events None)))
              paris_events ltac:(discriminate) eq_refl)
    as (w' & Hrun & Hrenders & Hms & Hlast & Hex & Hacc).
  exists w'. split; [exact Hrun|]. split; [by rewrite Hrenders, Hex|].
  split; [by rewrite Hms, Hacc|].
  rewrite (Hlast [delta_event "Par"; delta_event "is"; delta_event " is lovely"]
             completed_event eq_refl eq_refl).
  by rewrite Hacc.
Defined.

(** C2. A turn whose streaming call raises, or whose stream raises while it
    is consumed, is caught inside the turn: the turn returns normally, the
    user's entry stays in the transcript, no assistant entry is appended,
    the earlier entries and the conversation id are unchanged, and a later
    turn runs against the same conversation id and commits its answer. *)
Theorem failed_turn_is_isolated
    (agent : AgentVersion) (prompt : string) (ms : list message) (cid : string)
    (cache : option (AIProjectClient * AgentVersion)) (t0 : list effect)
    (rem : remote) (e : string) :
  prompt ≠ "" →
  turn_fails rem e →
  ∃ w',
    chat_turn agent (Some prompt) rem (World (session ms cid) cache t0) = (w', Ret ())
    ∧ session_state w' = session (ms ++ [user_says prompt]) cid
    ∧ resource_cache w' = cache
    ∧ StError ("응답 생성 중 오류가 발생했습니다: " +:+ e) ∈ trace w'
    ∧ ∀ prompt' rem' evs',
        prompt' ≠ "" →
        responses_reply rem' = inr (Stream evs' None) →
        ∃ w'',
          chat_turn agent (Some prompt') rem' w' = (w'', Ret ())
          ∧ ResponsesCreate (turn_request agent cid prompt') ∈ trace w''
          ∧ session_state w'' =
              session (ms ++ [user_says prompt; user_says prompt';
                              assistant_says (accumulated evs')]) cid.
Proof.
  intros Hp [Hcall | [evs Hstream]].
  - eexists. split; [by apply chat_turn_call_raises|].
    cbn [session_state resource_cache trace]. repeat split.
    + unfold turn_error_report. set_solver.
    + intros prompt' rem' evs' Hp' Hreply'. eexists.
      split; [by apply chat_turn_completes|].
      cbn [session_state trace]. split; [set_solver|].
      by rewrite <- app_assoc.
  - eexists. split; [by apply chat_turn_stream_raises|].
    cbn [session_state resource_cache trace]. repeat split.
    + unfold turn_error_report. set_solver.
    + intros prompt' rem' evs' Hp' Hreply'. eexists.
      split; [by apply chat_turn_completes|].
      cbn [session_state trace]. split; [set_solver|].
      by rewrite <- app_assoc.
Qed.

Lemma failed_turn_is_isolated_witness :
  ∃ w',
    chat_turn sample_agent (Some "Where to?")
      (sample_remote (inr (Stream [delta_event "Par"] (Some "connection reset"))))
      (World (session [] "conv_1") None []) = (w', Ret ())
    ∧ session_state w' = session [user_says "Where to?"] "conv_1"
    ∧ ∃ w'',
        chat_turn sample_agent (Some "Again?")
          (sample_remote (inr (Stream paris_events None))) w' = (w'', Ret ())
        ∧ ResponsesCreate (turn_request sample_agent "conv_1" "Again?") ∈ trace w''
        ∧ session_state w'' =
            session [user_says "Where to?"; user_says "Again?";
                     assistant_says "Paris is lovely"] "conv_1".
Proof.
  destruct (failed_turn_is_isolated sample_agent "Where to?" [] "conv_1" None []
              (sample_remote (inr (Stream [delta_event "Par"] (Some "connection reset"))))
              "connection reset" ltac:(discriminate)
              (or_intror (ex_intro _ [delta_event "Par"] eq_refl)))
    as (w' & Hrun & Hstate & _ & _ & Hnext).
  exists w'. split; [exact Hrun|]. split; [exact Hstate|].
  exact (Hnext "Again?" (sample_remote (inr (Stream paris_events None))) paris_events
           ltac:(discriminate) eq_refl).
Defined.

(** C5. The streaming request of a turn carries the session's conversation
    id, tool_choice "required", the utterance as input, and an agent
    reference made of the provisioned agent's name and the type
    agent_reference, with no version field; it is the only such request of
    the turn, whatever the service answers. *)
Theorem turn_request_parameters
    (agent : AgentVersion) (prompt : string) (ms : list message) (cid : string)
    (cache : option (AIProjectClient * AgentVersion)) (t0 : list effect)
    (rem : remote) :
  prompt ≠ "" →
  ∃ w' t req,
    chat_turn agent (Some prompt) rem (World (session ms cid) cache t0) = (w', Ret ())
    ∧ trace w' = t0 ++ t
    ∧ List.filter is_responses_create t = [ResponsesCreate req]
    ∧ req_stream req = true
    ∧ req_conversation req = cid
    ∧ req_tool_choice req = "required"
    ∧ req_input req = prompt
    ∧ req_extra_body req =
        JObject [("agent", JObject [("name", JString (name agent));
                                    ("type", JString "agent_reference")])]
    ∧ at_path ["agent"; "version"] (req_extra_body req) = None.
Proof.
  intros Hp.
  destruct (responses_reply rem) as [e | [evs [e|]]] eqn:Hreply.
  - eexists _, _, (turn_request agent cid prompt).
    split; [by apply chat_turn_call_raises|]. by repeat split.
  - eexists _, _, (turn_request agent cid prompt).
    split; [by apply chat_turn_stream_raises|].
    cbn [trace]. split; [reflexivity|]. split; [|by repeat split].
    cbn [app List.filter is_responses_create].
    by rewrite List.filter_app, no_request_in_renders.
  - eexists _, _, (turn_request agent cid prompt).
    split; [by apply chat_turn_completes|].
    cbn [trace]. split; [reflexivity|]. split; [|by repeat split].
    cbn [app List.filter is_responses_create].
    by rewrite no_request_in_renders.
Qed.

Lemma turn_request_parameters_witness :
  ∃ w' t req,
    chat_turn sample_agent (Some "Where to?")
      (sample_remote (inr (Stream paris_events None)))
      (World (session [] "conv_1") None []) = (w', Ret ())
    ∧ trace w' = [] ++ t
    ∧ List.filter is_responses_create t = [ResponsesCreate req]
    ∧ req_stream req = true
    ∧ req_conversation req = "conv_1"
    ∧ req_tool_choice req = "required"
    ∧ req_input req = "Where to?"
    ∧ req_extra_body req =
        JObject [("agent", JObject [("name", JString "tour-agent");
                                    ("type", JString "agent_reference")])]
    ∧ at_path ["agent"; "version"] (req_extra_body req) = None.
Proof.
  apply (turn_request_parameters sample_agent "Where to?" [] "conv_1" None []
           (sample_remote (inr (Stream paris_events None)))).
  discriminate.
Defined.

(** ** Settings *)

Lemma truthy_None (v : option string) : truthy v = None → v = None ∨ v = Some "".
Proof. destruct v as [[|c s]|]; cbn; intros; by auto. Qed.

Lemma get_required_env_missing environ key w :
  truthy (environ !! key) = None →
  get_required_env environ key w =
    (World (session_state w) (resource_cache w)
       (trace w ++ [StError (missing_key_message key)]),
     Exc StopException).
Proof. intros H. unfold get_required_env. rewrite H. reflexivity. Qed.

Lemma get_required_env_present environ key value w :
  truthy (environ !! key) = Some value →
  get_required_env environ key w = (w, Ret value).
Proof. intros H. unfold get_required_env. rewrite H. reflexivity. Qed.

Ltac next_key H :=
  match goal with
  | |- context [get_required_env ?env ?k ?w] =>
      destruct (truthy (env !! k)) eqn:H;
      [ rewrite (get_required_env_present env k _ w H)
      | right; exists k; split; [set_solver|]; split; [exact (truthy_None _ H)|];
        rewrite (get_required_env_missing env k w H); reflexivity ]
  end.

(** Loading the settings either returns them, every required key being
    populated, or stops at the first required key that is absent or empty,
    after an error message that names it and nothing else. *)
Lemma load_settings_cases (environ : gmap string string) (w : world) :
  (∃ cfg, (∀ k, k ∈ required_keys → ¬ missing environ k)
          ∧ load_settings environ w = (w, Ret cfg))
  ∨ (∃ k, k ∈ required_keys ∧ missing environ k
          ∧ load_settings environ w =
              (World (session_state w) (resource_cache w)
                 (trace w ++ [StError (missing_key_message k)]),
               Exc StopException)).
Proof.
  unfold load_settings, try_except, mbind, M_bind.
  next_key H1. next_key H2. next_key H3. next_key H4.
  next_key H5. next_key H6. next_key H7.
  left. eexists. split; [|reflexivity].
  intros k Hk Hmiss%truthy_missing.
  unfold required_keys in Hk.
  repeat (apply elem_of_cons in Hk as [-> | Hk]; [congruence|]).
  by apply elem_of_nil in Hk.
Qed.

(** A run of the script ends where the loading of the settings stops. *)
Lemma script_stops_with_settings environ ui rem w w' i :
  load_settings environ w = (w', Exc i) → script environ ui rem w = (w', Exc i).
Proof. intros H. unfold script, mbind, M_bind. by rewrite H. Qed.

(** C6. When a required key is absent or empty, the run stops in the
    loading of the settings: its only effect is an error message that names
    a required key that is absent or empty (the key itself when it is the
    only one), and no call leaves the process. *)
Theorem missing_key_stops_before_network
    (environ : gmap string string) (ui : ui_input) (rem : remote) (w : world)
    (key : string) :
  key ∈ required_keys →
  missing environ key →
  ∃ named t,
    named ∈ required_keys
    ∧ missing environ named
    ∧ script environ ui rem w =
        (World (session_state w) (resource_cache w) (trace w ++ t), Exc StopException)
    ∧ t = [StError (missing_key_message named)]
    ∧ List.filter is_network_call t = []
    ∧ ((∀ k, k ∈ required_keys → missing environ k → k = key) → named = key).
Proof.
  intros Hkey Hmiss.
  destruct (load_settings_cases environ w) as [(cfg & Hall & _) | (k & Hk & Hkm & Hrun)].
  - by destruct (Hall key Hkey).
  - exists k, [StError (missing_key_message k)].
    split; [done|]. split; [done|].
    split; [by apply script_stops_with_settings|].
    split; [done|]. split; [done|]. intros Honly. by apply Honly.
Qed.

Lemma missing_key_stops_before_network_witness :
  ∃ named t,
    named ∈ required_keys
    ∧ missing (delete "AGENT_NAME" sample_environ) named
    ∧ script (delete "AGENT_NAME" sample_environ)
        {| chat_input := Some "Where to?"; reset_button := false |}
        (sample_remote (inr (Stream paris_events None)))
        (World {| messages := None; conversation_id := None |} None []) =
        (World {| messages := None; conversation_id := None |} None ([] ++ t),
         Exc StopException)
    ∧ t = [StError (missing_key_message named)]
    ∧ List.filter is_network_call t = []
    ∧ ((∀ k, k ∈ required_keys → missing (delete "AGENT_NAME" sample_environ) k →
          k = "AGENT_NAME") → named = "AGENT_NAME").
Proof.
  apply (missing_key_stops_before_network (delete "AGENT_NAME" sample_environ)
           {| chat_input := Some "Where to?"; reset_button := false |}
           (sample_remote (inr (Stream paris_events None)))
           (World {| messages := None; conversation_id := None |} None [])
           "AGENT_NAME").
  - unfold required_keys. set_solver.
  - left. vm_compute. reflexivity.
Defined.

(** With every key populated the settings are the values of the
    environment and the endpoint derived from them. *)
Lemma load_settings_populated (environ : gmap string string) (w : world)
    (se kb pe pr pc an am : string) :
  populated environ "AZURE_SEARCH_ENDPOINT" se →
  populated environ "AZURE_SEARCH_KB_NAME" kb →
  populated environ "PROJECT_ENDPOINT" pe →
  populated environ "PROJECT_RESOURCE_ID" pr →
  populated environ "PROJECT_CONNECTION_NAME" pc →
  populated environ "AGENT_NAME" an →
  populated environ "AGENT_MODEL" am →
  load_settings environ w =
    (w, Ret {| AZURE_SEARCH_ENDPOINT := se;
               KB_NAME := kb;
               PROJECT_ENDPOINT := pe;
               PROJECT_RESOURCE_ID := pr;
               PROJECT_CONNECTION_NAME := pc;
               AGENT_NAME := an;
               AGENT_MODEL := am;
               MCP_ENDPOINT :=
                 se +:+ "/knowledgebases/" +:+ kb
                 +:+ "/mcp?api-version=2025-11-01-preview" |}).
Proof.
  intros H1%truthy_populated H2%truthy_populated H3%truthy_populated
    H4%truthy_populated H5%truthy_populated H6%truthy_populated H7%truthy_populated.
  unfold load_settings, try_except, mbind, M_bind.
  rewrite (get_required_env_present _ _ _ _ H1), (get_required_env_present _ _ _ _ H2),
    (get_required_env_present _ _ _ _ H3), (get_required_env_present _ _ _ _ H4),
    (get_required_env_present _ _ _ _ H5), (get_required_env_present _ _ _ _ H6),
    (get_required_env_present _ _ _ _ H7).
  reflexivity.
Qed.

(** ** Provisioning *)

(** Once the credential has minted a token, [initialize_agent] issues the
    PUT of the connection, and only that one, whatever the management plane
    and the agent service answer. *)
Lemma initialize_agent_puts (cfg : Settings) (rem : remote) (w : world) (tok : string) :
  token_reply rem = inr tok →
  ∃ t r,
    initialize_agent cfg rem w =
      (World (session_state w) (resource_cache w) (trace w ++ t), r)
    ∧ List.filter is_put t =
        [HttpPut (conn_url cfg) [("Authorization", "Bearer " +:+ tok)] (connection_body cfg)]
    ∧ put_bodies t = [connection_body cfg].
Proof.
  intros Htok. unfold initialize_agent. run. rewrite Htok. run.
  destruct (put_reply rem) as [e|[]]; run.
  - eexists _, _. split; [by rewrite <- !app_assoc|]. by split.
  - destruct (create_version_reply rem) as [e|agent]; run.
    + eexists _, _. split; [by rewrite <- !app_assoc|]. by split.
    + eexists _, _. split; [by rewrite <- !app_assoc|]. by split.
Qed.

(** C4. For a fully populated settings mapping (and a credential that mints
    the management-plane token), provisioning issues exactly one PUT; it is
    addressed by the project resource id followed by /connections/ and the
    connection name, and the target field of its JSON body is the derived
    MCP endpoint. *)
Theorem connection_put_targets_mcp_endpoint
    (environ : gmap string string) (rem : remote) (w : world)
    (se kb pe pr pc an am tok : string) :
  populated environ "AZURE_SEARCH_ENDPOINT" se →
  populated environ "AZURE_SEARCH_KB_NAME" kb →
  populated environ "PROJECT_ENDPOINT" pe →
  populated environ "PROJECT_RESOURCE_ID" pr →
  populated environ "PROJECT_CONNECTION_NAME" pc →
  populated environ "AGENT_NAME" an →
  populated environ "AGENT_MODEL" am →
  token_reply rem = inr tok →
  ∃ cfg t r headers body,
    load_settings environ w = (w, Ret cfg)
    ∧ initialize_agent cfg rem w =
        (World (session_state w) (resource_cache w) (trace w ++ t), r)
    ∧ List.filter is_put t =
        [HttpPut ("https://management.azure.com" +:+ pr +:+ "/connections/" +:+ pc
                  +:+ "?api-version=2025-10-01-preview") headers body]
    ∧ at_path ["properties"; "target"] body =
        Some (JString (se +:+ "/knowledgebases/" +:+ kb
                       +:+ "/mcp?api-version=2025-11-01-preview")).
Proof.
  intros H1 H2 H3 H4 H5 H6 H7 Htok.
  eexists. 
  destruct (initialize_agent_puts
              {| AZURE_SEARCH_ENDPOINT := se; KB_NAME := kb; PROJECT_ENDPOINT := pe;
                 PROJECT_RESOURCE_ID := pr; PROJECT_CONNECTION_NAME := pc;
                 AGENT_NAME := an; AGENT_MODEL := am;
                 MCP_ENDPOINT :=
                   se +:+ "/knowledgebases/" +:+ kb
                   +:+ "/mcp?api-version=2025-11-01-preview" |}
              rem w tok Htok) as (t & r & Hrun & Hput & _).
  exists t, r. eexists _, _.
  split; [by apply (load_settings_populated environ w se kb pe pr pc an am)|].
  split; [exact Hrun|]. split; [exact Hput|]. reflexivity.
Qed.

Lemma connection_put_targets_mcp_endpoint_witness :
  ∃ cfg t r headers body,
    load_settings sample_environ (World {| messages := None; conversation_id := None |} None [])
      = (World {| messages := None; conversation_id := None |} None [], Ret cfg)
    ∧ initialize_agent cfg (sample_remote (inl "unused"))
        (World {| messages := None; conversation_id := None |} None []) =
        (World {| messages := None; conversation_id := None |} None ([] ++ t), r)
    ∧ List.filter is_put t =
        [HttpPut ("https://management.azure.com"
                  +:+ "/subscriptions/s/resourceGroups/g/projects/p"
                  +:+ "/connections/" +:+ "kb-connection"
                  +:+ "?api-version=2025-10-01-preview") headers body]
    ∧ at_path ["properties"; "target"] body =
        Some (JString ("https://search.example.net" +:+ "/knowledgebases/" +:+ "touragent"
                       +:+ "/mcp?api-version=2025-11-01-preview")).
Proof.
  apply (connection_put_targets_mcp_endpoint sample_environ (sample_remote (inl "unused"))
           (World {| messages := None; conversation_id := None |} None [])
           "https://search.example.net" "touragent" "https://project.example.net"
           "/subscriptions/s/resourceGroups/g/projects/p" "kb-connection"
           "tour-agent" "gpt-4o" "token");
    try (split; [vm_compute; reflexivity | discriminate]).
  reflexivity.
Defined.

(** C8. Two provisioning calls with the same settings put the same body on
    the wire, whatever the token and the replies of the remote side are in
    either call and whatever state the process is in: the body is a function
    of the settings alone, so any serialisation of it is the same too. *)
Theorem connection_body_depends_on_settings_only
    (cfg : Settings) (rem1 rem2 : remote) (w1 w2 : world) (tok1 tok2 : string) :
  token_reply rem1 = inr tok1 →
  token_reply rem2 = inr tok2 →
  ∃ t1 t2 r1 r2,
    initialize_agent cfg rem1 w1 =
      (World (session_state w1) (resource_cache w1) (trace w1 ++ t1), r1)
    ∧ initialize_agent cfg rem2 w2 =
        (World (session_state w2) (resource_cache w2) (trace w2 ++ t2), r2)
    ∧ put_bodies t1 = [connection_body cfg]
    ∧ put_bodies t2 = [connection_body cfg]
    ∧ ∀ dumps : json → string, dumps <$> put_bodies t1 = dumps <$> put_bodies t2.
Proof.
  intros Htok1 Htok2.
  destruct (initialize_agent_puts cfg rem1 w1 tok1 Htok1) as (t1 & r1 & Hrun1 & _ & Hb1).
  destruct (initialize_agent_puts cfg rem2 w2 tok2 Htok2) as (t2 & r2 & Hrun2 & _ & Hb2).
  exists t1, t2, r1, r2. repeat split; try done.
  intros dumps. by rewrite Hb1, Hb2.
Qed.

Lemma connection_body_depends_on_settings_only_witness :
  ∃ t1 t2 r1 r2,
    initialize_agent sample_settings (sample_remote (inl "unused"))
      (World {| messages := None; conversation_id := None |} None []) =
      (World {| messages := None; conversation_id := None |} None ([] ++ t1), r1)
    ∧ initialize_agent sample_settings failing_remote
        (World (session [] "conv_1") None [LogInfo "earlier"]) =
        (World (session [] "conv_1") None ([LogInfo "earlier"] ++ t2), r2)
    ∧ put_bodies t1 = [connection_body sample_settings]
    ∧ put_bodies t2 = [connection_body sample_settings]
    ∧ ∀ dumps : json → string, dumps <$> put_bodies t1 = dumps <$> put_bodies t2.
Proof.
  exact (connection_body_depends_on_settings_only sample_settings
           (sample_remote (inl "unused")) failing_remote
           (World {| messages := None; conversation_id := None |} None [])
           (World (session [] "conv_1") None [LogInfo "earlier"])
           "token" "another token" eq_refl eq_refl).
Defined.

(** ** Runs in which no turn and no reset happens *)

Lemma no_request_in_history (ms : list message) :
  List.filter is_responses_create (history ms) = [].
Proof. induction ms as [|m ms IH]; [reflexivity|]. exact IH. Qed.

Lemma show_each_run (ms : list message) (w : world) :
  show_each ms w =
    (World (session_state w) (resource_cache w) (trace w ++ history ms), Ret ()).
Proof.
  revert w. induction ms as [|m ms IH]; intros w.
  - cbn. rewrite app_nil_r. by destruct w.
  - cbn [show_each]. run. rewrite IH. run. unfold history. by rewrite <- app_assoc.
Qed.

(** Loading the settings touches neither the session nor the cache, and
    issues no streaming request. *)
Lemma load_settings_frame (environ : gmap string string) (w : world) :
  ∃ t r,
    load_settings environ w =
      (World (session_state w) (resource_cache w) (trace w ++ t), r)
    ∧ List.filter is_responses_create t = [].
Proof.
  destruct (load_settings_cases environ w) as [(cfg & _ & ->) | (k & _ & _ & ->)].
  - exists [], (Ret cfg). rewrite app_nil_r. by destruct w.
  - by eexists _, _.
Qed.

(** Loading the agent leaves the session as it is and issues no streaming
    request. *)
Lemma load_agent_frame (cfg : Settings) (rem : remote) (w : world) :
  ∃ c t r,
    load_agent cfg rem w = (World (session_state w) c (trace w ++ t), r)
    ∧ List.filter is_responses_create t = [].
Proof.
  unfold load_agent, cache_resource, initialize_agent. run.
  destruct (resource_cache w) as [cached|]; run; [by eexists _, _, _|].
  destruct (token_reply rem) as [e|tok]; run.
  { eexists _, _, _. split; [by rewrite <- !app_assoc|]. done. }
  destruct (put_reply rem) as [e|[]]; run.
  { eexists _, _, _. split; [by rewrite <- !app_assoc|]. done. }
  destruct (create_version_reply rem) as [e|agent]; run.
  { eexists _, _, _. split; [by rewrite <- !app_assoc|]. done. }
  eexists _, _, _. split; [by rewrite <- !app_assoc|]. done.
Qed.

(** A run in which the chat input is empty or absent and the reset button
    is not pressed leaves a bootstrapped session as it is, and issues no
    streaming request. *)
Lemma idle_run_frame (environ : gmap string string) (rem : remote) (w : world)
    (ms : list message) (cid : string) (p : option string) :
  truthy p = None →
  session_state w = session ms cid →
  ∃ c t r,
    script environ {| chat_input := p; reset_button := false |} rem w =
      (World (session_state w) c (trace w ++ t), r)
    ∧ List.filter is_responses_create t = [].
Proof.
  intros Hp Hs. unfold script, mbind, M_bind.
  destruct (load_settings_cases environ w) as [(cfg & _ & ->) | (k & _ & _ & ->)];
    [|by eexists _, _, _].
  destruct (load_agent_frame cfg rem w) as (c & t & r & -> & Ht).
  destruct r as [[client agent]|i]; [|by eexists _, _, _].
  unfold init_session, show_history, chat_turn, sidebar. run.
  rewrite Hs, Hp. run. rewrite show_each_run. run.
  eexists _, _, _. split; [by rewrite <- !app_assoc|].
  rewrite !List.filter_app, Ht, no_request_in_history. reflexivity.
Qed.

(** C10. An empty or absent utterance runs no turn: the handler returns at
    once and leaves the transcript, the conversation id and the trace as
    they are; a whole run with such an input (and no reset) leaves a
    bootstrapped session unchanged and issues no streaming request. *)
Theorem falsy_utterance_runs_no_turn
    (agent : AgentVersion) (environ : gmap string string) (rem : remote) (w : world)
    (ms : list message) (cid : string) (p : option string) :
  p = None ∨ p = Some "" →
  session_state w = session ms cid →
  chat_turn agent p rem w = (w, Ret ())
  ∧ ∃ c t r,
      script environ {| chat_input := p; reset_button := false |} rem w =
        (World (session_state w) c (trace w ++ t), r)
      ∧ List.filter is_responses_create t = [].
Proof.
  intros Hp Hs.
  assert (Hfalsy : truthy p = None) by (by destruct Hp as [-> | ->]).
  split.
  - unfold chat_turn. by rewrite Hfalsy.
  - by apply (idle_run_frame environ rem w ms cid p).
Qed.

Lemma falsy_utterance_runs_no_turn_witness :
  chat_turn sample_agent (Some "") (sample_remote (inr (Stream paris_events None)))
    (World (session [user_says "Where to?"] "conv_1") None []) =
    (World (session [user_says "Where to?"] "conv_1") None [], Ret ())
  ∧ ∃ c t r,
      script sample_environ {| chat_input := Some ""; reset_button := false |}
        (sample_remote (inr (Stream paris_events None)))
        (World (session [user_says "Where to?"] "conv_1") None []) =
        (World (session [user_says "Where to?"] "conv_1") c ([] ++ t), r)
      ∧ List.filter is_responses_create t = [].
Proof.
  exact (falsy_utterance_runs_no_turn sample_agent sample_environ
           (sample_remote (inr (Stream paris_events None)))
           (World (session [user_says "Where to?"] "conv_1") None [])
           [user_says "Where to?"] "conv_1" (Some "") (or_intror eq_refl) eq_refl).
Defined.

(** ** Whole runs of a bootstrapped session *)

(** With valid settings, a cached agent and a bootstrapped session, a run
    reaches the widgets: it shows the transcript, then runs the chat turn
    and the sidebar. *)
Lemma script_bootstrapped (environ : gmap string string) (ui : ui_input) (rem : remote)
    (client : AIProjectClient) (agent : AgentVersion)
    (ms : list message) (cid : string) (t0 : list effect) :
  (∀ k, k ∈ required_keys → ¬ missing environ k) →
  ∃ cfg,
    script environ ui rem (World (session ms cid) (Some (client, agent)) t0) =
      (chat_turn agent (chat_input ui) rem;; sidebar cfg (reset_button ui) rem)
        (World (session ms cid) (Some (client, agent))
           (t0 ++ StSuccess "✅ 에이전트 준비 완료!" :: history ms)).
Proof.
  intros Hall.
  destruct (load_settings_cases environ (World (session ms cid) (Some (client, agent)) t0))
    as [(cfg & _ & Hload) | (k & Hk & Hmiss & _)]; [|by destruct (Hall k Hk)].
  exists cfg. unfold script at 1, mbind at 1 2 3 4, M_bind at 1 2 3 4. rewrite Hload.
  unfold load_agent, cache_resource, init_session, show_history. run.
  rewrite show_each_run. run. by rewrite <- app_assoc.
Qed.

(** A run with an utterance whose stream completes commits the turn. *)
Lemma script_turn_completes (environ : gmap string string) (rem : remote)
    (client : AIProjectClient) (agent : AgentVersion)
    (ms : list message) (cid : string) (t0 : list effect) (prompt : string) :
  (∀ k, k ∈ required_keys → ¬ missing environ k) →
  successful_turn (prompt, rem) →
  ∃ t,
    script environ {| chat_input := Some prompt; reset_button := false |} rem
      (World (session ms cid) (Some (client, agent)) t0) =
      (World (session (ms ++ [user_says prompt; assistant_says (reply_text rem)]) cid)
         (Some (client, agent)) t,
       Ret ()).
Proof.
  intros Hall [Hp [evs Hreply]]. cbn [fst snd] in *.
  destruct (script_bootstrapped environ
              {| chat_input := Some prompt; reset_button := false |} rem
              client agent ms cid t0 Hall) as [cfg ->].
  cbn [chat_input reset_button]. unfold mbind, M_bind.
  rewrite (chat_turn_completes agent prompt ms cid _ _ rem Hp evs Hreply).
  unfold sidebar, reply_text. rewrite Hreply. run. by eexists.
Qed.

(** Pressing the reset button in such a session: the run clears the
    transcript, takes the new conversation id and asks for a rerun, and the
    rerun ends normally with both in place. *)
Lemma reset_interaction (environ : gmap string string) (rem rem' : remote)
    (client : AIProjectClient) (agent : AgentVersion)
    (ms : list message) (old new : string) (t0 : list effect) :
  (∀ k, k ∈ required_keys → ¬ missing environ k) →
  reset_conversation_reply rem = inr new →
  ∃ t,
    interaction environ {| chat_input := None; reset_button := true |} rem rem'
      (World (session ms old) (Some (client, agent)) t0) =
      (World (session [] new) (Some (client, agent)) t, Ret ()).
Proof.
  intros Hall Hreply. unfold interaction.
  destruct (script_bootstrapped environ {| chat_input := None; reset_button := true |}
              rem client agent ms old t0 Hall) as [cfg ->].
  unfold sidebar at 1. run. rewrite Hreply. run.
  match goal with
  | |- context [script environ no_input rem' (World ?s ?c ?t)] =>
      destruct (script_bootstrapped environ no_input rem' client agent [] new t Hall)
        as [cfg' Hrerun]
  end.
  unfold session in Hrerun. rewrite Hrerun.
  unfold sidebar. run. by eexists.
Qed.

(** ** The reset button *)

(** C7. A reset whose conversation-creation call returns a fresh id ends in
    a rerun with an empty transcript (length 0) and that new id, which
    differs from the id held before; the rerun leaves both as they are. *)
Theorem reset_starts_fresh_conversation
    (cfg : Settings) (rem : remote) (w : world) (ms : list message) (old new : string) :
  session_state w = session ms old →
  reset_conversation_reply rem = inr new →
  new ≠ old →
  ∃ w' ms',
    sidebar cfg true rem w = (w', Exc RerunException)
    ∧ messages (session_state w') = Some ms'
    ∧ length ms' = 0
    ∧ conversation_id (session_state w') = Some new
    ∧ conversation_id (session_state w') ≠ conversation_id (session_state w)
    ∧ (∀ environ rem', ∃ c t r,
         script environ no_input rem' w' =
           (World (session_state w') c (trace w' ++ t), r))
    ∧ ∀ environ rem' client agent,
        (∀ k, k ∈ required_keys → ¬ missing environ k) →
        resource_cache w = Some (client, agent) →
        ∃ t,
          interaction environ {| chat_input := None; reset_button := true |} rem rem' w =
            (World (session [] new) (Some (client, agent)) t, Ret ()).
Proof.
  intros Hs Hreply Hfresh.
  assert (Hwhole : ∀ environ rem' client agent,
            (∀ k, k ∈ required_keys → ¬ missing environ k) →
            resource_cache w = Some (client, agent) →
            ∃ t,
              interaction environ {| chat_input := None; reset_button := true |} rem rem' w =
                (World (session [] new) (Some (client, agent)) t, Ret ())).
  { intros environ rem' client agent Hall Hcache.
    destruct w as [s c t0]. cbn in Hs, Hcache. subst s c.
    by apply reset_interaction. }
  revert Hwhole. unfold sidebar. run. rewrite Hreply. run. intros Hwhole.
  eexists _, []. split; [reflexivity|]. cbn [session_state messages conversation_id].
  rewrite Hs. cbn [session conversation_id].
  split; [done|]. split; [done|]. split; [done|]. split; [congruence|].
  split; [|exact Hwhole].
  intros environ rem'.
  destruct (idle_run_frame environ rem'
              (World {| messages := Some []; conversation_id := Some new |}
                 (resource_cache w)
                 ((((trace w ++ [StHeader "ℹ️ 정보"])
                    ++ [StWrite ("**에이전트**: " +:+ AGENT_NAME cfg)])
                    ++ [StWrite ("**모델**: " +:+ AGENT_MODEL cfg)])
                    ++ [ConversationsCreate]))
              [] new None eq_refl eq_refl) as (c & t & r & Hrun & _).
  by exists c, t, r.
Qed.

Lemma reset_starts_fresh_conversation_witness :
  ∃ w' ms',
    sidebar sample_settings true (sample_remote (inl "unused"))
      (World (session [user_says "Where to?"; assistant_says "Paris"] "conv_1") None [])
      = (w', Exc RerunException)
    ∧ messages (session_state w') = Some ms'
    ∧ length ms' = 0
    ∧ conversation_id (session_state w') = Some "conv_2"
    ∧ conversation_id (session_state w') ≠ Some "conv_1".
Proof.
  destruct (reset_starts_fresh_conversation sample_settings (sample_remote (inl "unused"))
              (World (session [user_says "Where to?"; assistant_says "Paris"] "conv_1") None [])
              [user_says "Where to?"; assistant_says "Paris"] "conv_1" "conv_2"
              eq_refl eq_refl ltac:(discriminate))
    as (w' & ms' & Hrun & Hms & Hlen & Hcid & Hne & _ & _).
  by exists w', ms'.
Defined.

(** C9. The reset is not atomic: the transcript is cleared before the
    conversation is created, so when that call raises the run ends with the
    exception while the transcript is already empty and the conversation id
    is still the one held before. *)
Theorem failed_reset_keeps_cleared_transcript
    (cfg : Settings) (rem : remote) (w : world) (e : string) :
  reset_conversation_reply rem = inl e →
  ∃ w',
    sidebar cfg true rem w = (w', Exc (PyException e))
    ∧ messages (session_state w') = Some []
    ∧ conversation_id (session_state w') = conversation_id (session_state w)
    ∧ last (trace w') = Some ConversationsCreate.
Proof.
  intros Hreply. unfold sidebar. run. rewrite Hreply. run.
  eexists. split; [reflexivity|]. cbn [session_state messages conversation_id trace].
  split; [done|]. split; [done|]. apply last_snoc.
Qed.

Lemma failed_reset_keeps_cleared_transcript_witness :
  ∃ w',
    sidebar sample_settings true failing_remote
      (World (session [user_says "Where to?"; assistant_says "Paris"] "conv_1") None [])
      = (w', Exc (PyException "503 Service Unavailable"))
    ∧ messages (session_state w') = Some []
    ∧ conversation_id (session_state w') = Some "conv_1"
    ∧ last (trace w') = Some ConversationsCreate.
Proof.
  exact (failed_reset_keeps_cleared_transcript sample_settings failing_remote
           (World (session [user_says "Where to?"; assistant_says "Paris"] "conv_1") None [])
           "503 Service Unavailable" eq_refl).
Defined.

(** ** Several turns *)

Lemma transcript_of_length (turns : list (string * remote)) :
  length (transcript_of turns) = 2 * length turns.
Proof.
  induction turns as [|t turns IH]; [reflexivity|].
  cbn [transcript_of flat_map app length] in *. fold (transcript_of turns).
  rewrite IH. lia.
Qed.

Lemma transcript_of_roles (turns : list (string * remote)) (i : nat) (m : message) :
  transcript_of turns !! i = Some m →
  role m = if Nat.even i then "user" else "assistant".
Proof.
  revert i. induction turns as [|t turns IH]; intros i; [by destruct i|].
  cbn [transcript_of flat_map app]. fold (transcript_of turns).
  destruct i as [|[|i]]; cbn [lookup list_lookup].
  - by intros [= <-].
  - by intros [= <-].
  - exact (IH i).
Qed.

Lemma run_turns_transcript (agent : AgentVersion) (cid : string)
    (cache : option (AIProjectClient * AgentVersion))
    (turns : list (string * remote)) :
  Forall successful_turn turns →
  ∀ ms t0, ∃ t',
    run_turns agent turns (World (session ms cid) cache t0) =
      (World (session (ms ++ transcript_of turns) cid) cache t', Ret ()).
Proof.
  induction 1 as [|[prompt rem] turns [Hp [evs Hreply]] _ IH]; intros ms t0.
  - exists t0. cbn. by rewrite app_nil_r.
  - cbn [run_turns fst snd] in *. unfold mbind, M_bind.
    rewrite (chat_turn_completes agent prompt ms cid cache t0 rem Hp evs Hreply).
    destruct (IH (ms ++ [user_says prompt; assistant_says (accumulated evs)])
                 (t0 ++ [ChatMarkdown "user" prompt;
                         ResponsesCreate (turn_request agent cid prompt)] ++
                        (PlaceholderMarkdown <$> renders_in_arrival_order evs)))
      as [t' Ht'].
    exists t'. rewrite Ht'. cbn [transcript_of flat_map fst snd].
    unfold reply_text. rewrite Hreply. cbn [events].
    by rewrite <- app_assoc.
Qed.

Lemma run_session_transcript (environ : gmap string string)
    (client : AIProjectClient) (agent : AgentVersion) (cid : string)
    (turns : list (string * remote)) :
  (∀ k, k ∈ required_keys → ¬ missing environ k) →
  Forall successful_turn turns →
  ∀ ms t0, ∃ t',
    run_session environ turns (World (session ms cid) (Some (client, agent)) t0) =
      World (session (ms ++ transcript_of turns) cid) (Some (client, agent)) t'.
Proof.
  intros Hall. induction 1 as [|[prompt rem] turns Hturn _ IH]; intros ms t0.
  - exists t0. cbn. by rewrite app_nil_r.
  - cbn [run_session].
    destruct (script_turn_completes environ rem client agent ms cid t0 prompt Hall Hturn)
      as [t ->].
    cbn [fst].
    destruct (IH (ms ++ [user_says prompt; assistant_says (reply_text rem)]) t) as [t' ->].
    exists t'. cbn [transcript_of flat_map fst snd]. by rewrite <- app_assoc.
Qed.

(** C3. Starting from an empty transcript, N successful turns (a non-empty
    utterance followed by a stream that completes without error) leave a
    transcript of exactly 2N entries whose roles alternate user, assistant,
    starting with user: for the turn handler run N times, and for N whole
    runs of the script with valid settings and the agent provisioned. *)
Theorem transcript_alternates_after_turns
    (environ : gmap string string) (client : AIProjectClient) (agent : AgentVersion)
    (cid : string) (t0 : list effect) (turns : list (string * remote)) :
  (∀ k, k ∈ required_keys → ¬ missing environ k) →
  Forall successful_turn turns →
  ∃ w' ms,
    run_turns agent turns (World (session [] cid) (Some (client, agent)) t0) = (w', Ret ())
    ∧ messages (session_state w') = Some ms
    ∧ messages (session_state
                  (run_session environ turns
                     (World (session [] cid) (Some (client, agent)) t0))) = Some ms
    ∧ length ms = 2 * length turns
    ∧ ∀ i m, ms !! i = Some m →
        role m = if Nat.even i then "user" else "assistant".
Proof.
  intros Hall Hturns.
  destruct (run_turns_transcript agent cid (Some (client, agent)) turns Hturns [] t0)
    as [t' Hrun].
  destruct (run_session_transcript environ client agent cid turns Hall Hturns [] t0)
    as [t'' Hsession].
  eexists _, (transcript_of turns). split; [exact Hrun|].
  rewrite Hsession. cbn [session_state messages session app].
  split; [reflexivity|]. split; [reflexivity|].
  split; [apply transcript_of_length | apply transcript_of_roles].
Qed.

Lemma transcript_alternates_after_turns_witness :
  ∃ w' ms,
    run_turns sample_agent
      [("Where to?", sample_remote (inr (Stream paris_events None)));
       ("And then?", sample_remote (inr (Stream [delta_event "Lyon"] None)))]
      (World (session [] "conv_1")
         (Some ({| endpoint := "https://project.example.net" |}, sample_agent)) [])
      = (w', Ret ())
    ∧ messages (session_state w') = Some ms
    ∧ messages (session_state
                  (run_session sample_environ
                     [("Where to?", sample_remote (inr (Stream paris_events None)));
                      ("And then?", sample_remote (inr (Stream [delta_event "Lyon"] None)))]
                     (World (session [] "conv_1")
                        (Some ({| endpoint := "https://project.example.net" |}, sample_agent))
                        []))) = Some ms
    ∧ length ms = 4
    ∧ ∀ i m, ms !! i = Some m →
        role m = if Nat.even i then "user" else "assistant".
Proof.
  apply (transcript_alternates_after_turns sample_environ
           {| endpoint := "https://project.example.net" |} sample_agent "conv_1" []
           [("Where to?", sample_remote (inr (Stream paris_events None)));
            ("And then?", sample_remote (inr (Stream [delta_event "Lyon"] None)))]).
  - intros k Hk Hmiss. unfold required_keys in Hk.
    repeat (apply elem_of_cons in Hk as [-> | Hk];
            [by destruct Hmiss as [Hm | Hm]; vm_compute in Hm|]).
    by apply elem_of_nil in Hk.
  - repeat constructor; try discriminate; eexists; reflexivity.
Defined.

(** * Further properties of the script *)

(** ** Settings (lines 31-52) *)

Lemma truthy_Some_populated environ key value :
  truthy (environ !! key) = Some value → populated environ key value.
Proof.
  unfold populated.
  destruct (environ !! key) as [[|c r]|]; cbn; intros [= <-]; by split.
Qed.

Lemma populated_not_missing environ key value :
  populated environ key value → ¬ missing environ key.
Proof. intros [H Hne] [Hm | Hm]; rewrite H in Hm; congruence. Qed.

(** X1. The settings are read from the seven required keys and from
    nothing else: two environments that agree on them load alike. *)
Theorem load_settings_reads_required_keys_only
    (env1 env2 : gmap string string) (w : world) :
  (∀ k, k ∈ required_keys → env1 !! k = env2 !! k) →
  load_settings env1 w = load_settings env2 w.
Proof.
  intros Hagree. unfold load_settings, get_required_env.
  rewrite !Hagree by (unfold required_keys; set_solver). reflexivity.
Qed.

Lemma load_settings_reads_required_keys_only_witness :
  load_settings sample_environ (World fresh_session None []) =
  load_settings (<["HOME" := "/home/app"]> (delete "PATH" sample_environ))
    (World fresh_session None []).
Proof.
  apply (load_settings_reads_required_keys_only sample_environ
           (<["HOME" := "/home/app"]> (delete "PATH" sample_environ))
           (World fresh_session None [])).
  intros k Hk. unfold required_keys in Hk.
  repeat (apply elem_of_cons in Hk as [-> | Hk]; [vm_compute; reflexivity|]).
  by apply elem_of_nil in Hk.
Defined.

Ltac stop_at_key H :=
  match goal with
  | |- context [get_required_env ?env ?k ?w] =>
      destruct (truthy (env !! k)) eqn:H;
      [ rewrite (get_required_env_present env k _ w H);
        apply truthy_Some_populated, populated_not_missing in H
      | rewrite (get_required_env_missing env k w H);
        apply truthy_None in H ]
  end.

(** X2. When the loading of the settings does not return, it stopped at the
    first required key, in source order, that is absent or empty: every key
    before it is populated, the one error message names it, and the run is
    stopped rather than failed. *)
Theorem first_missing_key_is_reported
    (environ : gmap string string) (w w' : world) (i : interrupt) :
  load_settings environ w = (w', Exc i) →
  ∃ before k after,
    required_keys = before ++ k :: after
    ∧ Forall (λ k', ¬ missing environ k') before
    ∧ missing environ k
    ∧ i = StopException
    ∧ w' = World (session_state w) (resource_cache w)
             (trace w ++ [StError (missing_key_message k)]).
Proof.
  unfold load_settings, try_except, mbind, M_bind.
  stop_at_key H1;
    [|intros [= <- <-]; by exists [], "AZURE_SEARCH_ENDPOINT", (tail required_keys)].
  stop_at_key H2;
    [|intros [= <- <-];
      exists (take 1 required_keys), "AZURE_SEARCH_KB_NAME", (drop 2 required_keys);
      repeat split; [by repeat constructor | done]].
  stop_at_key H3;
    [|intros [= <- <-];
      exists (take 2 required_keys), "PROJECT_ENDPOINT", (drop 3 required_keys);
      repeat split; [by repeat constructor | done]].
  stop_at_key H4;
    [|intros [= <- <-];
      exists (take 3 required_keys), "PROJECT_RESOURCE_ID", (drop 4 required_keys);
      repeat split; [by repeat constructor | done]].
  stop_at_key H5;
    [|intros [= <- <-];
      exists (take 4 required_keys), "PROJECT_CONNECTION_NAME", (drop 5 required_keys);
      repeat split; [by repeat constructor | done]].
  stop_at_key H6;
    [|intros [= <- <-];
      exists (take 5 required_keys), "AGENT_NAME", (drop 6 required_keys);
      repeat split; [by repeat constructor | done]].
  stop_at_key H7;
    [|intros [= <- <-];
      exists (take 6 required_keys), "AGENT_MODEL", (drop 7 required_keys);
      repeat split; [by repeat constructor | done]].
  discriminate.
Qed.

Lemma first_missing_key_is_reported_witness :
  ∃ before k after,
    required_keys = before ++ k :: after
    ∧ Forall (λ k', ¬ missing (<["PROJECT_ENDPOINT" := ""]> (delete "AGENT_NAME" sample_environ)) k')
        before
    ∧ missing (<["PROJECT_ENDPOINT" := ""]> (delete "AGENT_NAME" sample_environ)) k
    ∧ StopException = StopException
    ∧ World fresh_session None [StError (missing_key_message "PROJECT_ENDPOINT")] =
        World fresh_session None ([] ++ [StError (missing_key_message k)]).
Proof.
  apply (first_missing_key_is_reported
           (<["PROJECT_ENDPOINT" := ""]> (delete "AGENT_NAME" sample_environ))
           (World fresh_session None [])
           (World fresh_session None [StError (missing_key_message "PROJECT_ENDPOINT")])
           StopException).
  vm_compute. reflexivity.
Defined.

Ltac read_key H :=
  match goal with
  | |- context [get_required_env ?env ?k ?w] =>
      destruct (truthy (env !! k)) eqn:H;
      [ rewrite (get_required_env_present env k _ w H);
        apply truthy_Some_populated in H
      | rewrite (get_required_env_missing env k w H); discriminate ]
  end.

(** X3. The settings that are loaded are the environment's: each field is
    the non-empty value held under its key, the MCP endpoint is derived
    from the search endpoint and the knowledge-base name, and loading
    leaves the world as it was. *)
Theorem loaded_settings_are_the_environment
    (environ : gmap string string) (w w' : world) (cfg : Settings) :
  load_settings environ w = (w', Ret cfg) →
  w' = w
  ∧ populated environ "AZURE_SEARCH_ENDPOINT" (AZURE_SEARCH_ENDPOINT cfg)
  ∧ populated environ "AZURE_SEARCH_KB_NAME" (KB_NAME cfg)
  ∧ populated environ "PROJECT_ENDPOINT" (PROJECT_ENDPOINT cfg)
  ∧ populated environ "PROJECT_RESOURCE_ID" (PROJECT_RESOURCE_ID cfg)
  ∧ populated environ "PROJECT_CONNECTION_NAME" (PROJECT_CONNECTION_NAME cfg)
  ∧ populated environ "AGENT_NAME" (AGENT_NAME cfg)
  ∧ populated environ "AGENT_MODEL" (AGENT_MODEL cfg)
  ∧ MCP_ENDPOINT cfg =
      AZURE_SEARCH_ENDPOINT cfg +:+ "/knowledgebases/" +:+ KB_NAME cfg
      +:+ "/mcp?api-version=2025-11-01-preview".
Proof.
  unfold load_settings, try_except, mbind, M_bind.
  read_key H1. read_key H2. read_key H3. read_key H4.
  read_key H5. read_key H6. read_key H7.
  intros [= <- <-]. cbn. split; [reflexivity|].
  repeat (split; [assumption|]). reflexivity.
Qed.

Lemma loaded_settings_are_the_environment_witness :
  populated sample_environ "AZURE_SEARCH_ENDPOINT" "https://search.example.net"
  ∧ populated sample_environ "AGENT_MODEL" "gpt-4o"
  ∧ MCP_ENDPOINT sample_settings =
      "https://search.example.net" +:+ "/knowledgebases/" +:+ "touragent"
      +:+ "/mcp?api-version=2025-11-01-preview".
Proof.
  destruct (loaded_settings_are_the_environment sample_environ
              (World fresh_session None []) (World fresh_session None [])
              sample_settings ltac:(vm_compute; reflexivity))
    as (_ & H1 & _ & _ & _ & _ & _ & H7 & Hmcp).
  exact (conj H1 (conj H7 Hmcp)).
Defined.

(** ** Provisioning (lines 57-122) *)

(** X4. Without a management-plane token nothing is provisioned: the
    exception of the token call is logged and raised again, no PUT is
    issued and no agent version is created. *)
Theorem no_token_no_provisioning
    (cfg : Settings) (rem : remote) (w : world) (e : string) :
  token_reply rem = inl e →
  ∃ t,
    initialize_agent cfg rem w =
      (World (session_state w) (resource_cache w) (trace w ++ t), Exc (PyException e))
    ∧ put_bodies t = []
    ∧ List.filter is_create_version t = []
    ∧ last t = Some (LogError ("에이전트 초기화 실패: " +:+ e)).
Proof.
  intros Htok. unfold initialize_agent. run. rewrite Htok. run.
  eexists. split; [by rewrite <- !app_assoc|]. by repeat split.
Qed.

Lemma no_token_no_provisioning_witness :
  ∃ t,
    initialize_agent sample_settings
      {| token_reply := inl "DefaultAzureCredential failed to retrieve a token";
         put_reply := inr ();
         create_version_reply := inr sample_agent;
         bootstrap_conversation_reply := inr "conv_1";
         responses_reply := inr (Stream paris_events None);
         reset_conversation_reply := inr "conv_2" |}
      (World fresh_session None []) =
      (World fresh_session None ([] ++ t),
       Exc (PyException "DefaultAzureCredential failed to retrieve a token"))
    ∧ put_bodies t = []
    ∧ List.filter is_create_version t = []
    ∧ last t =
        Some (LogError ("에이전트 초기화 실패: "
                        +:+ "DefaultAzureCredential failed to retrieve a token")).
Proof.
  exact (no_token_no_provisioning sample_settings
           {| token_reply := inl "DefaultAzureCredential failed to retrieve a token";
              put_reply := inr ();
              create_version_reply := inr sample_agent;
              bootstrap_conversation_reply := inr "conv_1";
              responses_reply := inr (Stream paris_events None);
              reset_conversation_reply := inr "conv_2" |}
           (World fresh_session None [])
           "DefaultAzureCredential failed to retrieve a token" eq_refl).
Defined.

(** X5. When the PUT of the connection fails, its exception is logged and
    raised again and no agent version is created: the agent is only ever
    created after the connection was accepted. *)
Theorem rejected_put_creates_no_agent
    (cfg : Settings) (rem : remote) (w : world) (tok e : string) :
  token_reply rem = inr tok →
  put_reply rem = inl e →
  ∃ t,
    initialize_agent cfg rem w =
      (World (session_state w) (resource_cache w) (trace w ++ t), Exc (PyException e))
    ∧ put_bodies t = [connection_body cfg]
    ∧ List.filter is_create_version t = []
    ∧ last t = Some (LogError ("에이전트 초기화 실패: " +:+ e)).
Proof.
  intros Htok Hput. unfold initialize_agent. run. rewrite Htok. run.
  rewrite Hput. run.
  eexists. split; [by rewrite <- !app_assoc|]. by repeat split.
Qed.

Lemma rejected_put_creates_no_agent_witness :
  ∃ t,
    initialize_agent sample_settings failing_remote (World fresh_session None []) =
      (World fresh_session None ([] ++ t), Exc (PyException "409 Conflict"))
    ∧ put_bodies t = [connection_body sample_settings]
    ∧ List.filter is_create_version t = []
    ∧ last t = Some (LogError ("에이전트 초기화 실패: " +:+ "409 Conflict")).
Proof.
  exact (rejected_put_creates_no_agent sample_settings failing_remote
           (World fresh_session None []) "another token" "409 Conflict"
           eq_refl eq_refl).
Defined.

(** X6. When provisioning returns, it returns the client of the project
    endpoint and the agent the service created, after exactly one PUT and
    exactly one version creation; the created definition names the
    configured agent and model and has a single tool, which points at the
    target of the connection just written, refers to that connection by
    name, may only call knowledge_base_retrieve and never asks for
    approval. *)
Theorem provisioned_agent_is_bound_to_the_connection
    (cfg : Settings) (rem : remote) (w : world) (agent : AgentVersion) :
  provisioning_returns rem agent →
  ∃ t body definition tool,
    initialize_agent cfg rem w =
      (World (session_state w) (resource_cache w) (trace w ++ t),
       Ret ({| endpoint := PROJECT_ENDPOINT cfg |}, agent))
    ∧ put_bodies t = [body]
    ∧ List.filter is_create_version t = [AgentsCreateVersion (AGENT_NAME cfg) definition]
    ∧ model definition = AGENT_MODEL cfg
    ∧ tools definition = [tool]
    ∧ at_path ["properties"; "target"] body = Some (JString (server_url tool))
    ∧ member "name" body = Some (JString (project_connection_id tool))
    ∧ allowed_tools tool = ["knowledge_base_retrieve"]
    ∧ require_approval tool = "never".
Proof.
  intros ([tok Htok] & Hput & Hcreate). unfold initialize_agent. run.
  rewrite Htok. run. rewrite Hput. run. rewrite Hcreate. run.
  eexists _, _, _, (mcp_kb_tool cfg).
  split; [by rewrite <- !app_assoc|]. by repeat split.
Qed.

Lemma provisioned_agent_is_bound_to_the_connection_witness :
  ∃ t body definition tool,
    initialize_agent sample_settings (sample_remote (inl "unused"))
      (World fresh_session None []) =
      (World fresh_session None ([] ++ t),
       Ret ({| endpoint := "https://project.example.net" |}, sample_agent))
    ∧ put_bodies t = [body]
    ∧ List.filter is_create_version t = [AgentsCreateVersion "tour-agent" definition]
    ∧ model definition = "gpt-4o"
    ∧ tools definition = [tool]
    ∧ at_path ["properties"; "target"] body = Some (JString (server_url tool))
    ∧ member "name" body = Some (JString (project_connection_id tool))
    ∧ allowed_tools tool = ["knowledge_base_retrieve"]
    ∧ require_approval tool = "never".
Proof.
  apply (provisioned_agent_is_bound_to_the_connection sample_settings
           (sample_remote (inl "unused")) (World fresh_session None []) sample_agent).
  split; [by exists "token"|]. split; reflexivity.
Defined.

(** ** The script as its sections *)

Lemma script_sections (environ : gmap string string) (ui : ui_input) (rem : remote)
    (w : world) :
  script environ ui rem w =
    match load_settings environ w with
    | (w1, Ret cfg) =>
        match load_agent cfg rem w1 with
        | (w2, Ret r) => widgets cfg r.2 ui rem w2
        | (w2, Exc i) => (w2, Exc i)
        end
    | (w1, Exc i) => (w1, Exc i)
    end.
Proof.
  unfold script, mbind at 1 2, M_bind at 1 2.
  destruct (load_settings environ w) as [w1 [cfg|i]]; [|reflexivity].
  destruct (load_agent cfg rem w1) as [w2 [r|i]]; reflexivity.
Qed.

Lemma no_provisioning_in_renders (rs : list string) :
  List.filter is_provisioning_call (PlaceholderMarkdown <$> rs) = [].
Proof. induction rs as [|r rs IH]; [reflexivity|]. exact IH. Qed.

Lemma no_provisioning_in_history (ms : list message) :
  List.filter is_provisioning_call (history ms) = [].
Proof. induction ms as [|m ms IH]; [reflexivity|]. exact IH. Qed.

Ltac close_frame :=
  eexists _, _, _;
  split; [rewrite <- ?app_assoc; reflexivity|];
  rewrite ?List.filter_app, ?no_provisioning_in_renders, ?no_provisioning_in_history;
  reflexivity.

(** Sections 6 to 9 leave the resource cache alone and make no
    provisioning call, in every session state and for every input and
    reply. *)
Lemma widgets_frame (cfg : Settings) (agent : AgentVersion) (ui : ui_input)
    (rem : remote) (w : world) :
  ∃ s t r,
    widgets cfg agent ui rem w = (World s (resource_cache w) (trace w ++ t), r)
    ∧ List.filter is_provisioning_call t = [].
Proof.
  destruct w as [[m c] cache t0], ui as [p reset].
  unfold widgets, init_session, show_history, chat_turn, for_event_in, sidebar.
  destruct m as [ms|], c as [cid|]; run;
    try (destruct (bootstrap_conversation_reply rem) as [e0|cid]; run;
         [close_frame|]);
    rewrite ?show_each_run; run;
    (destruct (truthy p) as [prompt|]; run;
     [ destruct (responses_reply rem) as [e1|[evs [e1|]]]; run;
       rewrite ?consume_from_start; run |]);
    (destruct reset; run;
     [ destruct (reset_conversation_reply rem) as [e2|new]; run |]);
    close_frame.
Qed.

(** ** Provisioning across runs (lines 57-135) *)

(** X7. Once an agent is cached, no run provisions again: whatever the
    environment, the input, the session and the replies are, the run keeps
    the cached agent and requests no token, issues no PUT and creates no
    agent version. *)
Theorem cached_agent_is_never_provisioned_again
    (environ : gmap string string) (ui : ui_input) (rem : remote) (w : world)
    (r : AIProjectClient * AgentVersion) :
  resource_cache w = Some r →
  ∃ s t res,
    script environ ui rem w = (World s (Some r) (trace w ++ t), res)
    ∧ List.filter is_provisioning_call t = [].
Proof.
  intros Hcache. rewrite script_sections.
  destruct (load_settings_cases environ w) as [(cfg & _ & ->) | (k & _ & _ & ->)];
    [|rewrite Hcache; by eexists _, _, _].
  unfold load_agent, cache_resource. run. rewrite Hcache. run.
  match goal with
  | |- context [widgets cfg ?a ui rem ?w1] =>
      destruct (widgets_frame cfg a ui rem w1) as (s & t & res & -> & Ht)
  end.
  cbn [resource_cache trace]. rewrite Hcache.
  eexists _, _, _. split; [by rewrite <- app_assoc|].
  rewrite List.filter_app, Ht. reflexivity.
Qed.

Lemma cached_agent_is_never_provisioned_again_witness :
  ∃ s t res,
    script sample_environ {| chat_input := Some "Where to?"; reset_button := true |}
      failing_remote
      (World fresh_session
         (Some ({| endpoint := "https://project.example.net" |}, sample_agent)) []) =
      (World s (Some ({| endpoint := "https://project.example.net" |}, sample_agent))
         ([] ++ t), res)
    ∧ List.filter is_provisioning_call t = [].
Proof.
  exact (cached_agent_is_never_provisioned_again sample_environ
           {| chat_input := Some "Where to?"; reset_button := true |} failing_remote
           (World fresh_session
              (Some ({| endpoint := "https://project.example.net" |}, sample_agent)) [])
           ({| endpoint := "https://project.example.net" |}, sample_agent) eq_refl).
Defined.

(** X8. The first run of a process with valid settings and a healthy
    provisioning caches the client and the agent, after exactly one token
    request, one PUT of the connection and one version creation, in that
    order, whatever happens later in the run. *)
Theorem first_run_provisions_once_and_caches
    (environ : gmap string string) (ui : ui_input) (rem : remote) (w : world)
    (cfg : Settings) (tok : string) (agent : AgentVersion) :
  load_settings environ w = (w, Ret cfg) →
  resource_cache w = None →
  token_reply rem = inr tok →
  put_reply rem = inr () →
  create_version_reply rem = inr agent →
  ∃ s t res,
    script environ ui rem w =
      (World s (Some ({| endpoint := PROJECT_ENDPOINT cfg |}, agent)) (trace w ++ t), res)
    ∧ List.filter is_provisioning_call t =
        [ TokenRequest "https://management.azure.com/.default";
          HttpPut (conn_url cfg) [("Authorization", "Bearer " +:+ tok)]
            (connection_body cfg);
          AgentsCreateVersion (AGENT_NAME cfg)
            {| model := AGENT_MODEL cfg;
               instructions := instructions_text;
               tools := [mcp_kb_tool cfg] |} ].
Proof.
  intros Hload Hcache Htok Hput Hcreate. rewrite script_sections, Hload.
  unfold load_agent, cache_resource, initialize_agent. run.
  rewrite Hcache, Htok. run. rewrite Hput. run. rewrite Hcreate. run.
  match goal with
  | |- context [widgets cfg ?a ui rem ?w1] =>
      destruct (widgets_frame cfg a ui rem w1) as (s & t & res & -> & Ht)
  end.
  cbn [resource_cache trace].
  eexists _, _, _. split; [by rewrite <- !app_assoc|].
  cbn [app List.filter is_provisioning_call]. by rewrite Ht.
Qed.

Lemma first_run_provisions_once_and_caches_witness :
  ∃ s t res,
    script sample_environ {| chat_input := None; reset_button := false |}
      (sample_remote (inl "unused")) (World fresh_session None []) =
      (World s (Some ({| endpoint := "https://project.example.net" |}, sample_agent))
         ([] ++ t), res)
    ∧ List.filter is_provisioning_call t =
        [ TokenRequest "https://management.azure.com/.default";
          HttpPut (conn_url sample_settings) [("Authorization", "Bearer " +:+ "token")]
            (connection_body sample_settings);
          AgentsCreateVersion "tour-agent"
            {| model := "gpt-4o";
               instructions := instructions_text;
               tools := [mcp_kb_tool sample_settings] |} ].
Proof.
  exact (first_run_provisions_once_and_caches sample_environ
           {| chat_input := None; reset_button := false |}
           (sample_remote (inl "unused")) (World fresh_session None [])
           sample_settings "token" sample_agent
           ltac:(vm_compute; reflexivity) eq_refl eq_refl eq_refl eq_refl).
Defined.

(** X9. A provisioning that raises is fatal to the run and leaves no mark
    on the process: the run shows the error with the exception's text and
    stops, nothing is cached, the session is as it was, and neither a
    conversation nor a streaming response is requested, whatever the user
    entered. *)
Theorem failed_provisioning_stops_the_run
    (environ : gmap string string) (ui : ui_input) (rem : remote) (w : world)
    (cfg : Settings) (e : string) :
  load_settings environ w = (w, Ret cfg) →
  resource_cache w = None →
  provisioning_fails rem e →
  ∃ t,
    script environ ui rem w =
      (World (session_state w) None (trace w ++ t), Exc StopException)
    ∧ StError ("❌ 에이전트 초기화 실패: " +:+ e) ∈ t
    ∧ List.filter is_conversations_create t = []
    ∧ List.filter is_responses_create t = [].
Proof.
  intros Hload Hcache Hfail. rewrite script_sections, Hload.
  unfold load_agent, cache_resource, initialize_agent. run. rewrite Hcache.
  destruct Hfail as [Htok | [(tok & Htok & Hput) | (tok & Htok & Hput & Hcreate)]];
    rewrite Htok; run; rewrite ?Hput; run; rewrite ?Hcreate; run;
    (eexists; split; [by rewrite <- !app_assoc|]);
    (split; [set_solver|]); by split.
Qed.

Lemma failed_provisioning_stops_the_run_witness :
  ∃ t,
    script sample_environ {| chat_input := Some "Where to?"; reset_button := false |}
      failing_remote (World fresh_session None []) =
      (World fresh_session None ([] ++ t), Exc StopException)
    ∧ StError ("❌ 에이전트 초기화 실패: " +:+ "409 Conflict") ∈ t
    ∧ List.filter is_conversations_create t = []
    ∧ List.filter is_responses_create t = [].
Proof.
  apply (failed_provisioning_stops_the_run sample_environ
           {| chat_input := Some "Where to?"; reset_button := false |}
           failing_remote (World fresh_session None []) sample_settings "409 Conflict").
  - vm_compute. reflexivity.
  - reflexivity.
  - right. left. by exists "another token".
Defined.

(** ** Bootstrapping the session (lines 140-149) *)

(** X10. A session that section 6 has let through is bootstrapped: its
    transcript is the one it had, or the empty one if it had none; if it
    had a conversation id it keeps it and no conversation is created; and
    running section 6 again changes nothing and creates no second
    conversation, whatever the service would answer. *)
Theorem session_is_bootstrapped_once (rem rem' : remote) (w w1 : world) :
  init_session rem w = (w1, Ret ()) →
  ∃ cid,
    session_state w1 = session (default [] (messages (session_state w))) cid
    ∧ (∀ c, conversation_id (session_state w) = Some c → cid = c ∧ trace w1 = trace w)
    ∧ init_session rem' w1 = (w1, Ret ()).
Proof.
  destruct w as [[m c] cache t0]. unfold init_session.
  destruct m as [ms|], c as [cid|]; run.
  - intros [= <-]. exists cid. split; [reflexivity|].
    split; [|reflexivity]. by intros c [= <-].
  - destruct (bootstrap_conversation_reply rem) as [e|cid]; run; [discriminate|].
    intros [= <-]. exists cid. split; [reflexivity|].
    split; [|reflexivity]. by intros c [=].
  - intros [= <-]. exists cid. split; [reflexivity|].
    split; [|reflexivity]. by intros c [= <-].
  - destruct (bootstrap_conversation_reply rem) as [e|cid]; run; [discriminate|].
    intros [= <-]. exists cid. split; [reflexivity|].
    split; [|reflexivity]. by intros c [=].
Qed.

Lemma session_is_bootstrapped_once_witness :
  ∃ cid,
    session_state (World (session [] "conv_1") None [ConversationsCreate]) = session [] cid
    ∧ (∀ c, conversation_id fresh_session = Some c →
         cid = c ∧ [ConversationsCreate] = @nil effect)
    ∧ init_session failing_remote (World (session [] "conv_1") None [ConversationsCreate]) =
        (World (session [] "conv_1") None [ConversationsCreate], Ret ()).
Proof.
  exact (session_is_bootstrapped_once (sample_remote (inl "unused")) failing_remote
           (World fresh_session None [])
           (World (session [] "conv_1") None [ConversationsCreate]) eq_refl).
Defined.



(** ** The event stream (lines 187-195) *)

(** X12. Events that are neither text deltas nor the completed marker are
    skipped: a stream and the same stream without them render the same
    texts and end the loop alike, with the same text or the same failure. *)
Theorem other_events_are_skipped
    (evs : list event) (fail : option string) (full_response : string) (w : world) :
  for_event_in (Stream evs fail) full_response w =
  for_event_in (Stream (List.filter relevant evs) fail) full_response w.
Proof.
  unfold for_event_in. cbn [events failure]. unfold mbind, M_bind.
  assert (Hloop : ∀ acc w0,
            consume evs acc w0 = consume (List.filter relevant evs) acc w0).
  { induction evs as [|ev evs IH]; intros acc w0; [reflexivity|].
    cbn [List.filter consume]. unfold relevant, is_delta, is_completed.
    destruct (String.eqb (type ev) "response.output_text.delta") eqn:Hd.
    - cbn [orb consume]. rewrite Hd. unfold mbind, M_bind.
      destruct (emit _ w0) as [w1 [[]|i]]; [apply IH | reflexivity].
    - destruct (String.eqb (type ev) "response.completed") eqn:Hc.
      + cbn [orb consume]. rewrite Hd, Hc. unfold mbind, M_bind.
        destruct (emit _ w0) as [w1 [[]|i]]; [apply IH | reflexivity].
      + cbn [orb]. apply IH. }
  by rewrite Hloop.
Qed.

Lemma string_app_length (a b : string) :
  String.length (a +:+ b) = String.length a + String.length b.
Proof.
  induction a as [|c a IH]; [reflexivity|].
  change (S (String.length (a +:+ b)) = S (String.length a + String.length b)).
  by rewrite IH.
Qed.

Lemma cursor_is_visible (text : string) : text +:+ cursor ≠ text.
Proof.
  intros H. apply (f_equal String.length) in H.
  rewrite string_app_length in H. cbn in H. lia.
Qed.

Lemma renders_snoc_delta (pre : list event) (ev : event) :
  is_delta ev = true →
  renders_in_arrival_order (pre ++ [ev]) =
    renders_in_arrival_order pre ++ [accumulated (pre ++ [ev]) +:+ cursor].
Proof.
  intros Hd. unfold renders_in_arrival_order.
  rewrite length_app. cbn [length]. rewrite seq_app, omap_app. cbn [seq Nat.add].
  f_equal.
  - apply omap_seq_ext. intros i Hi. apply render_at_app_l. lia.
  - rewrite omap_cons. unfold render_at.
    rewrite lookup_app_r, Nat.sub_diag by lia. cbn [lookup list_lookup].
    rewrite Hd, take_app_ge by lia.
    replace (S (length pre) - length pre) with 1 by lia. done.
Qed.

(** X13. The cursor marker is removed only by a completed event: when the
    stream ends normally right after a delta, the last text shown is the
    answer followed by the cursor marker, while the entry committed to the
    transcript is the answer without it. *)
Theorem cursor_stays_without_completed_event
    (agent : AgentVersion) (prompt : string) (ms : list message) (cid : string)
    (cache : option (AIProjectClient * AgentVersion)) (t0 : list effect)
    (rem : remote) (pre : list event) (d : event) :
  prompt ≠ "" →
  is_delta d = true →
  responses_reply rem = inr (Stream (pre ++ [d]) None) →
  ∃ w' text,
    chat_turn agent (Some prompt) rem (World (session ms cid) cache t0) = (w', Ret ())
    ∧ session_state w' = session (ms ++ [user_says prompt; assistant_says text]) cid
    ∧ last (renders (trace w')) = Some (text +:+ cursor)
    ∧ text +:+ cursor ≠ text.
Proof.
  intros Hp Hd Hreply. eexists _, (accumulated (pre ++ [d])).
  split; [by apply chat_turn_completes|].
  cbn [session_state trace]. split; [reflexivity|]. split; [|apply cursor_is_visible].
  rewrite !renders_app, renders_placeholders, (renders_snoc_delta _ _ Hd).
  by rewrite !app_assoc, last_snoc.
Qed.

Lemma cursor_stays_without_completed_event_witness :
  ∃ w' text,
    chat_turn sample_agent (Some "Where to?")
      (sample_remote (inr (Stream ([delta_event "Par"] ++ [delta_event "is"]) None)))
      (World (session [] "conv_1") None []) = (w', Ret ())
    ∧ session_state w' =
        session ([] ++ [user_says "Where to?"; assistant_says text]) "conv_1"
    ∧ last (renders (trace w')) = Some (text +:+ cursor)
    ∧ text +:+ cursor ≠ text.
Proof.
  exact (cursor_stays_without_completed_event sample_agent "Where to?" [] "conv_1" None []
           (sample_remote (inr (Stream ([delta_event "Par"] ++ [delta_event "is"]) None)))
           [delta_event "Par"] (delta_event "is")
           ltac:(discriminate) eq_refl eq_refl).
Defined.

Lemma accumulated_without_deltas (evs : list event) :
  Forall (λ ev, is_delta ev = false) evs → accumulated evs = "".
Proof.
  induction 1 as [|ev evs Hev _ IH]; [reflexivity|].
  cbn [accumulated foldr]. fold (accumulated evs). unfold fragment.
  by rewrite Hev, IH.
Qed.

(** X14. A stream that ends normally without any text delta (an empty
    stream included) still commits an assistant entry, with empty content:
    the transcript grows by the user entry and an empty answer. *)
Theorem stream_without_deltas_commits_empty_answer
    (agent : AgentVersion) (prompt : string) (ms : list message) (cid : string)
    (cache : option (AIProjectClient * AgentVersion)) (t0 : list effect)
    (rem : remote) (evs : list event) :
  prompt ≠ "" →
  Forall (λ ev, is_delta ev = false) evs →
  responses_reply rem = inr (Stream evs None) →
  ∃ w',
    chat_turn agent (Some prompt) rem (World (session ms cid) cache t0) = (w', Ret ())
    ∧ session_state w' = session (ms ++ [user_says prompt; assistant_says ""]) cid
    ∧ Forall (λ text, text = "") (renders_in_arrival_order evs)
    ∧ renders (trace w') = renders t0 ++ renders_in_arrival_order evs.
Proof.
  intros Hp Hevs Hreply. eexists. split; [by apply chat_turn_completes|].
  cbn [session_state trace]. rewrite (accumulated_without_deltas _ Hevs).
  split; [reflexivity|]. split.
  - apply Forall_forall. intros text Htext.
    apply list_elem_of_omap in Htext as (i & _ & Hi). unfold render_at in Hi.
    destruct (evs !! i) as [ev|] eqn:Hev; [|discriminate].
    assert (Hnd : is_delta ev = false).
    { rewrite Forall_forall in Hevs. apply Hevs. by eapply list_elem_of_lookup_2. }
    rewrite Hnd in Hi. destruct (is_completed ev); [|discriminate].
    injection Hi as <-. apply accumulated_without_deltas.
    by apply Forall_take.
  - by rewrite !renders_app, renders_placeholders.
Qed.

Lemma stream_without_deltas_commits_empty_answer_witness :
  ∃ w',
    chat_turn sample_agent (Some "Where to?")
      (sample_remote (inr (Stream [completed_event] None)))
      (World (session [] "conv_1") None []) = (w', Ret ())
    ∧ session_state w' =
        session ([] ++ [user_says "Where to?"; assistant_says ""]) "conv_1"
    ∧ Forall (λ text, text = "") (renders_in_arrival_order [completed_event])
    ∧ renders (trace w') = renders [] ++ renders_in_arrival_order [completed_event].
Proof.
  apply (stream_without_deltas_commits_empty_answer sample_agent "Where to?" [] "conv_1"
           None [] (sample_remote (inr (Stream [completed_event] None)))
           [completed_event]).
  - discriminate.
  - by repeat constructor.
  - reflexivity.
Defined.

(** X15. When the stream raises while it is consumed, what was received
    before stays on screen exactly as it was rendered, the error message
    with the exception's text is the last thing shown, and the partial
    answer is not stored. *)
Theorem partial_answer_is_shown_but_not_stored
    (agent : AgentVersion) (prompt : string) (ms : list message) (cid : string)
    (cache : option (AIProjectClient * AgentVersion)) (t0 : list effect)
    (rem : remote) (evs : list event) (e : string) :
  prompt ≠ "" →
  responses_reply rem = inr (Stream evs (Some e)) →
  ∃ w',
    chat_turn agent (Some prompt) rem (World (session ms cid) cache t0) = (w', Ret ())
    ∧ renders (trace w') = renders t0 ++ renders_in_arrival_order evs
    ∧ last (trace w') = Some (StError ("응답 생성 중 오류가 발생했습니다: " +:+ e))
    ∧ session_state w' = session (ms ++ [user_says prompt]) cid.
Proof.
  intros Hp Hreply. eexists. split; [by apply chat_turn_stream_raises|].
  cbn [session_state trace]. split; [|split; [|reflexivity]].
  - rewrite !renders_app, renders_placeholders. cbn. by rewrite app_nil_r.
  - unfold turn_error_report.
    rewrite !app_assoc.
    match goal with
    | |- last (?l ++ [?a; ?b]) = _ =>
        change (l ++ [a; b]) with (l ++ [a] ++ [b]); by rewrite app_assoc, last_snoc
    end.
Qed.

Lemma partial_answer_is_shown_but_not_stored_witness :
  ∃ w',
    chat_turn sample_agent (Some "Where to?")
      (sample_remote (inr (Stream [delta_event "Par"] (Some "connection reset"))))
      (World (session [] "conv_1") None []) = (w', Ret ())
    ∧ renders (trace w') = renders [] ++ renders_in_arrival_order [delta_event "Par"]
    ∧ last (trace w') =
        Some (StError ("응답 생성 중 오류가 발생했습니다: " +:+ "connection reset"))
    ∧ session_state w' = session ([] ++ [user_says "Where to?"]) "conv_1".
Proof.
  exact (partial_answer_is_shown_but_not_stored sample_agent "Where to?" [] "conv_1" None []
           (sample_remote (inr (Stream [delta_event "Par"] (Some "connection reset"))))
           [delta_event "Par"] "connection reset" ltac:(discriminate) eq_refl).
Defined.

(** ** Runs of a bootstrapped session (lines 140-213) *)

Lemma truthy_Some_inv (p : option string) (s : string) :
  truthy p = Some s → p = Some s ∧ s ≠ "".
Proof. destruct p as [[|c r]|]; cbn; intros [= <-]; by split. Qed.

Lemma init_session_bootstrapped (rem : remote) (ms : list message) (cid : string)
    (cache : option (AIProjectClient * AgentVersion)) (t : list effect) :
  init_session rem (World (session ms cid) cache t) =
    (World (session ms cid) cache t, Ret ()).
Proof. reflexivity. Qed.

Lemma show_history_run (ms : list message) (cid : string)
    (cache : option (AIProjectClient * AgentVersion)) (t : list effect) :
  show_history (World (session ms cid) cache t) =
    (World (session ms cid) cache (t ++ history ms), Ret ()).
Proof. unfold show_history. run. by rewrite show_each_run. Qed.

Lemma sidebar_without_reset (cfg : Settings) (rem : remote) (w : world) :
  ∃ t, sidebar cfg false rem w =
         (World (session_state w) (resource_cache w) (trace w ++ t), Ret ())
       ∧ List.filter is_network_call t = []
       ∧ chat_markdowns t = [].
Proof.
  unfold sidebar. run. eexists. split; [by rewrite <- !app_assoc|]. by split.
Qed.

(** What one chat turn does to a bootstrapped session, for every input and
    every reply: nothing, or the user entry, or the user entry and the
    answer. *)
Lemma chat_turn_extends (agent : AgentVersion) (p : option string) (rem : remote)
    (ms : list message) (cid : string)
    (cache : option (AIProjectClient * AgentVersion)) (t0 : list effect) :
  ∃ ms' t,
    chat_turn agent p rem (World (session ms cid) cache t0) =
      (World (session (ms ++ ms') cid) cache t, Ret ())
    ∧ (ms' = []
       ∨ ∃ prompt, p = Some prompt ∧ prompt ≠ ""
           ∧ (ms' = [user_says prompt]
              ∨ ∃ text, ms' = [user_says prompt; assistant_says text])).
Proof.
  destruct (truthy p) as [prompt|] eqn:Hp.
  - apply truthy_Some_inv in Hp as [-> Hne].
    destruct (responses_reply rem) as [e | [evs [e|]]] eqn:Hreply.
    + eexists [user_says prompt], _.
      split; [by apply chat_turn_call_raises|]. right. exists prompt. by auto.
    + eexists [user_says prompt], _.
      split; [by apply chat_turn_stream_raises|]. right. exists prompt. by auto.
    + eexists [user_says prompt; assistant_says (accumulated evs)], _.
      split; [by apply chat_turn_completes|]. right. exists prompt. by eauto.
  - exists [], t0. unfold chat_turn. rewrite Hp, app_nil_r. by auto.
Qed.

(** X16. Outside a reset the transcript only grows and the conversation id
    never changes: whatever the environment, the input and the replies of
    the service are, a run in which the reset button is not pressed leaves
    a bootstrapped session with the same conversation id and with its
    transcript extended by nothing, by the user's entry, or by the user's
    entry followed by one assistant entry. *)
Theorem run_without_reset_keeps_the_conversation
    (environ : gmap string string) (p : option string) (rem : remote) (w : world)
    (ms : list message) (cid : string) :
  session_state w = session ms cid →
  ∃ ms',
    session_state (script environ {| chat_input := p; reset_button := false |} rem w).1
      = session (ms ++ ms') cid
    ∧ (ms' = []
       ∨ ∃ prompt, p = Some prompt ∧ prompt ≠ ""
           ∧ (ms' = [user_says prompt]
              ∨ ∃ text, ms' = [user_says prompt; assistant_says text])).
Proof.
  intros Hs. rewrite script_sections.
  destruct (load_settings_cases environ w) as [(cfg & _ & ->) | (k & _ & _ & ->)];
    [|exists []; rewrite app_nil_r; by auto].
  destruct (load_agent_frame cfg rem w) as (c & t & r & -> & _).
  destruct r as [[client agent]|i]; [|exists []; rewrite app_nil_r; by auto].
  rewrite Hs. unfold widgets, mbind, M_bind. cbn [snd chat_input reset_button].
  rewrite init_session_bootstrapped, show_history_run.
  destruct (chat_turn_extends agent p rem ms cid c ((trace w ++ t) ++ history ms))
    as (ms' & t' & -> & Hshape).
  destruct (sidebar_without_reset cfg rem (World (session (ms ++ ms') cid) c t'))
    as (t'' & -> & _).
  by exists ms'.
Qed.

Lemma run_without_reset_keeps_the_conversation_witness :
  ∃ ms',
    session_state
      (script sample_environ {| chat_input := Some "Where to?"; reset_button := false |}
         failing_remote
         (World (session [user_says "Hello"; assistant_says "Bonjour"] "conv_1") None [])).1
      = session ([user_says "Hello"; assistant_says "Bonjour"] ++ ms') "conv_1"
    ∧ (ms' = []
       ∨ ∃ prompt, Some "Where to?" = Some prompt ∧ prompt ≠ ""
           ∧ (ms' = [user_says prompt]
              ∨ ∃ text, ms' = [user_says prompt; assistant_says text])).
Proof.
  exact (run_without_reset_keeps_the_conversation sample_environ (Some "Where to?")
           failing_remote
           (World (session [user_says "Hello"; assistant_says "Bonjour"] "conv_1") None [])
           [user_says "Hello"; assistant_says "Bonjour"] "conv_1" eq_refl).
Defined.

Lemma chat_markdowns_app (t1 t2 : list effect) :
  chat_markdowns (t1 ++ t2) = chat_markdowns t1 ++ chat_markdowns t2.
Proof.
  induction t1 as [|e t1 IH]; [reflexivity|].
  destruct e; cbn; by rewrite ?IH.
Qed.

Lemma chat_markdowns_history (ms : list message) : chat_markdowns (history ms) = ms.
Proof.
  induction ms as [|[who text] ms IH]; [reflexivity|].
  cbn. by rewrite <- IH at 2.
Qed.

Lemma no_network_call_in_history (ms : list message) :
  List.filter is_network_call (history ms) = [].
Proof. induction ms as [|m ms IH]; [reflexivity|]. exact IH. Qed.

(** X17. A rerun without input of a provisioned, bootstrapped session with
    valid settings shows the whole transcript again, entry by entry in
    order and under each entry's role, makes no call that leaves the
    process and changes nothing. *)
Theorem idle_rerun_redisplays_the_transcript
    (environ : gmap string string) (rem : remote)
    (client : AIProjectClient) (agent : AgentVersion)
    (ms : list message) (cid : string) (t0 : list effect) :
  (∀ k, k ∈ required_keys → ¬ missing environ k) →
  ∃ t,
    script environ no_input rem (World (session ms cid) (Some (client, agent)) t0) =
      (World (session ms cid) (Some (client, agent)) (t0 ++ t), Ret ())
    ∧ chat_markdowns t = ms
    ∧ List.filter is_network_call t = [].
Proof.
  intros Hall.
  destruct (script_bootstrapped environ no_input rem client agent ms cid t0 Hall)
    as [cfg ->].
  cbn [no_input chat_input reset_button]. unfold mbind, M_bind.
  cbn [chat_turn truthy].
  destruct (sidebar_without_reset cfg rem
              (World (session ms cid) (Some (client, agent))
                 (t0 ++ StSuccess "✅ 에이전트 준비 완료!" :: history ms)))
    as (t & Hside & Hnet & Hmd).
  cbn [mret M_ret]. rewrite Hside. cbn [session_state resource_cache trace].
  exists ((StSuccess "✅ 에이전트 준비 완료!" :: history ms) ++ t).
  split; [by rewrite app_assoc|]. split.
  - rewrite chat_markdowns_app, Hmd, app_nil_r. cbn [chat_markdowns].
    apply chat_markdowns_history.
  - rewrite List.filter_app, Hnet, app_nil_r. cbn [List.filter is_network_call].
    apply no_network_call_in_history.
Qed.

Lemma idle_rerun_redisplays_the_transcript_witness :
  ∃ t,
    script sample_environ no_input failing_remote
      (World (session [user_says "Hello"; assistant_says "Bonjour"] "conv_1")
         (Some ({| endpoint := "https://project.example.net" |}, sample_agent)) []) =
      (World (session [user_says "Hello"; assistant_says "Bonjour"] "conv_1")
         (Some ({| endpoint := "https://project.example.net" |}, sample_agent)) ([] ++ t),
       Ret ())
    ∧ chat_markdowns t = [user_says "Hello"; assistant_says "Bonjour"]
    ∧ List.filter is_network_call t = [].
Proof.
  apply (idle_rerun_redisplays_the_transcript sample_environ failing_remote
           {| endpoint := "https://project.example.net" |} sample_agent
           [user_says "Hello"; assistant_says "Bonjour"] "conv_1" []).
  intros k Hk Hmiss. unfold required_keys in Hk.
  repeat (apply elem_of_cons in Hk as [-> | Hk];
          [by destruct Hmiss as [Hm | Hm]; vm_compute in Hm|]).
  by apply elem_of_nil in Hk.
Defined.

(** ** Reset followed by a turn (lines 161-213) *)

(** A run with an utterance whose stream completes, with the request it
    sends. *)
Lemma script_turn_request (environ : gmap string string) (rem : remote)
    (client : AIProjectClient) (agent : AgentVersion)
    (ms : list message) (cid : string) (t0 : list effect)
    (prompt : string) (evs : list event) :
  (∀ k, k ∈ required_keys → ¬ missing environ k) →
  prompt ≠ "" →
  responses_reply rem = inr (Stream evs None) →
  ∃ t,
    script environ {| chat_input := Some prompt; reset_button := false |} rem
      (World (session ms cid) (Some (client, agent)) t0) =
      (World (session (ms ++ [user_says prompt; assistant_says (accumulated evs)]) cid)
         (Some (client, agent)) (t0 ++ t),
       Ret ())
    ∧ List.filter is_responses_create t = [ResponsesCreate (turn_request agent cid prompt)].
Proof.
  intros Hall Hp Hreply.
  destruct (script_bootstrapped environ
              {| chat_input := Some prompt; reset_button := false |} rem
              client agent ms cid t0 Hall) as [cfg ->].
  cbn [chat_input reset_button]. unfold mbind, M_bind.
  rewrite (chat_turn_completes agent prompt ms cid _ _ rem Hp evs Hreply).
  unfold sidebar. run.
  eexists. split; [by rewrite <- !app_assoc|].
  rewrite !List.filter_app. cbn [List.filter is_responses_create].
  by rewrite no_request_in_history, no_request_in_renders.
Qed.

(** X18. After a reset whose conversation-creation call raised, the user
    goes on in the old conversation with an emptied transcript: the run of
    the reset ends with the exception, and the next utterance is sent under
    the conversation id held before the reset while the transcript holds
    that turn only. *)
Theorem failed_reset_continues_the_old_conversation
    (environ : gmap string string) (rem rem' : remote)
    (client : AIProjectClient) (agent : AgentVersion)
    (ms : list message) (cid : string) (t0 : list effect)
    (e prompt : string) (evs : list event) :
  (∀ k, k ∈ required_keys → ¬ missing environ k) →
  reset_conversation_reply rem = inl e →
  prompt ≠ "" →
  responses_reply rem' = inr (Stream evs None) →
  ∃ w1 t,
    script environ {| chat_input := None; reset_button := true |} rem
      (World (session ms cid) (Some (client, agent)) t0) = (w1, Exc (PyException e))
    ∧ script environ {| chat_input := Some prompt; reset_button := false |} rem' w1 =
        (World (session [user_says prompt; assistant_says (accumulated evs)] cid)
           (Some (client, agent)) (trace w1 ++ t),
         Ret ())
    ∧ List.filter is_responses_create t = [ResponsesCreate (turn_request agent cid prompt)].
Proof.
  intros Hall Hreset Hp Hreply.
  destruct (script_bootstrapped environ {| chat_input := None; reset_button := true |}
              rem client agent ms cid t0 Hall) as [cfg ->].
  unfold sidebar. run. rewrite Hreset. run.
  match goal with
  | |- ∃ w1 t, (World _ _ ?t1, _) = _ ∧ _ =>
      destruct (script_turn_request environ rem' client agent [] cid t1 prompt evs
                  Hall Hp Hreply) as (t & Hrun & Ht);
      exists (World (session [] cid) (Some (client, agent)) t1), t
  end.
  split; [reflexivity|]. split; [exact Hrun | exact Ht].
Qed.

Lemma failed_reset_continues_the_old_conversation_witness :
  ∃ w1 t,
    script sample_environ {| chat_input := None; reset_button := true |} failing_remote
      (World (session [user_says "Hello"; assistant_says "Bonjour"] "conv_1")
         (Some ({| endpoint := "https://project.example.net" |}, sample_agent)) [])
      = (w1, Exc (PyException "503 Service Unavailable"))
    ∧ script sample_environ {| chat_input := Some "Where to?"; reset_button := false |}
        (sample_remote (inr (Stream paris_events None))) w1 =
        (World (session [user_says "Where to?"; assistant_says (accumulated paris_events)]
                  "conv_1")
           (Some ({| endpoint := "https://project.example.net" |}, sample_agent))
           (trace w1 ++ t),
         Ret ())
    ∧ List.filter is_responses_create t =
        [ResponsesCreate (turn_request sample_agent "conv_1" "Where to?")].
Proof.
  apply (failed_reset_continues_the_old_conversation sample_environ failing_remote
           (sample_remote (inr (Stream paris_events None)))
           {| endpoint := "https://project.example.net" |} sample_agent
           [user_says "Hello"; assistant_says "Bonjour"] "conv_1" []
           "503 Service Unavailable" "Where to?" paris_events).
  - intros k Hk Hmiss. unfold required_keys in Hk.
    repeat (apply elem_of_cons in Hk as [-> | Hk];
            [by destruct Hmiss as [Hm | Hm]; vm_compute in Hm|]).
    by apply elem_of_nil in Hk.
  - reflexivity.
  - discriminate.
  - reflexivity.
Defined.

(** X19. After a successful reset the next turn belongs to the new
    conversation: the reset and its rerun end normally, the next utterance
    is sent under the id the reset obtained, and the transcript holds that
    turn only. *)
Theorem turn_after_reset_uses_the_new_conversation
    (environ : gmap string string) (rem rem1 rem' : remote)
    (client : AIProjectClient) (agent : AgentVersion)
    (ms : list message) (old new : string) (t0 : list effect)
    (prompt : string) (evs : list event) :
  (∀ k, k ∈ required_keys → ¬ missing environ k) →
  reset_conversation_reply rem = inr new →
  prompt ≠ "" →
  responses_reply rem' = inr (Stream evs None) →
  ∃ w1 t,
    interaction environ {| chat_input := None; reset_button := true |} rem rem1
      (World (session ms old) (Some (client, agent)) t0) = (w1, Ret ())
    ∧ script environ {| chat_input := Some prompt; reset_button := false |} rem' w1 =
        (World (session [user_says prompt; assistant_says (accumulated evs)] new)
           (Some (client, agent)) (trace w1 ++ t),
         Ret ())
    ∧ List.filter is_responses_create t = [ResponsesCreate (turn_request agent new prompt)].
Proof.
  intros Hall Hreset Hp Hreply.
  destruct (reset_interaction environ rem rem1 client agent ms old new t0 Hall Hreset)
    as [t1 ->].
  destruct (script_turn_request environ rem' client agent [] new t1 prompt evs
              Hall Hp Hreply) as (t & Hrun & Ht).
  eexists _, t. split; [reflexivity|]. by split.
Qed.

Lemma turn_after_reset_uses_the_new_conversation_witness :
  ∃ w1 t,
    interaction sample_environ {| chat_input := None; reset_button := true |}
      (sample_remote (inl "unused")) failing_remote
      (World (session [user_says "Hello"; assistant_says "Bonjour"] "conv_1")
         (Some ({| endpoint := "https://project.example.net" |}, sample_agent)) [])
      = (w1, Ret ())
    ∧ script sample_environ {| chat_input := Some "Where to?"; reset_button := false |}
        (sample_remote (inr (Stream paris_events None))) w1 =
        (World (session [user_says "Where to?"; assistant_says (accumulated paris_events)]
                  "conv_2")
           (Some ({| endpoint := "https://project.example.net" |}, sample_agent))
           (trace w1 ++ t),
         Ret ())
    ∧ List.filter is_responses_create t =
        [ResponsesCreate (turn_request sample_agent "conv_2" "Where to?")].
Proof.
  apply (turn_after_reset_uses_the_new_conversation sample_environ
           (sample_remote (inl "unused")) failing_remote
           (sample_remote (inr (Stream paris_events None)))
           {| endpoint := "https://project.example.net" |} sample_agent
           [user_says "Hello"; assistant_says "Bonjour"] "conv_1" "conv_2" []
           "Where to?" paris_events).
  - intros k Hk Hmiss. unfold required_keys in Hk.
    repeat (apply elem_of_cons in Hk as [-> | Hk];
            [by destruct Hmiss as [Hm | Hm]; vm_compute in Hm|]).
    by apply elem_of_nil in Hk.
  - reflexivity.
  - discriminate.
  - reflexivity.
Defined.

(** ** How a run can end (lines 40-213) *)

Lemma load_agent_result (cfg : Settings) (rem : remote) (w w2 : world)
    (r : result (AIProjectClient * AgentVersion)) :
  load_agent cfg rem w = (w2, r) → (∃ x, r = Ret x) ∨ r = Exc StopException.
Proof.
  unfold load_agent, cache_resource, initialize_agent. run.
  destruct (resource_cache w) as [cached|]; run; [intros [= <- <-]; by eauto|].
  destruct (token_reply rem) as [e|tok]; run; [intros [= <- <-]; by auto|].
  destruct (put_reply rem) as [e|[]]; run; [intros [= <- <-]; by auto|].
  destruct (create_version_reply rem) as [e|agent]; run; intros [= <- <-]; by eauto.
Qed.

Lemma widgets_result (cfg : Settings) (agent : AgentVersion) (ui : ui_input)
    (rem : remote) (w w' : world) (res : result ()) :
  widgets cfg agent ui rem w = (w', res) →
  res = Ret () ∨ res = Exc StopException
  ∨ (reset_button ui = true
     ∧ (res = Exc RerunException
        ∨ ∃ e, reset_conversation_reply rem = inl e ∧ res = Exc (PyException e))).
Proof.
  destruct w as [[m c] cache t0], ui as [p reset].
  unfold widgets, init_session, show_history, chat_turn, for_event_in, sidebar.
  destruct m as [ms|], c as [cid|]; run;
    try (destruct (bootstrap_conversation_reply rem) as [e0|cid]; run;
         [intros [= <- <-]; by auto|]);
    rewrite ?show_each_run; run;
    (destruct (truthy p) as [prompt|]; run;
     [ destruct (responses_reply rem) as [e1|[evs [e1|]]]; run;
       rewrite ?consume_from_start; run |]);
    (destruct reset; run;
     [ destruct (reset_conversation_reply rem) as [e2|new] eqn:Hreset; run |]);
    intros [= <- <-]; by eauto 8.
Qed.

(** X20. A run ends in one of four ways only: it returns; it stops itself
    after showing an error; it asks for a rerun, which only a pressed reset
    button does; or it fails with an uncaught exception, which only happens
    when the reset button is pressed and the creation of the new
    conversation raises, the exception being that call's. *)
Theorem only_a_failed_reset_escapes
    (environ : gmap string string) (ui : ui_input) (rem : remote) (w w' : world)
    (res : result ()) :
  script environ ui rem w = (w', res) →
  res = Ret () ∨ res = Exc StopException
  ∨ (reset_button ui = true
     ∧ (res = Exc RerunException
        ∨ ∃ e, reset_conversation_reply rem = inl e ∧ res = Exc (PyException e))).
Proof.
  rewrite script_sections.
  destruct (load_settings_cases environ w) as [(cfg & _ & ->) | (k & _ & _ & ->)];
    [|intros [= <- <-]; by auto].
  destruct (load_agent cfg rem w) as [w2 r] eqn:Hagent.
  destruct (load_agent_result _ _ _ _ _ Hagent) as [[x ->] | ->];
    [apply widgets_result | intros [= <- <-]; by auto].
Qed.

Lemma only_a_failed_reset_escapes_witness :
  let res : result () := Exc (PyException "503 Service Unavailable") in
  res = Ret () ∨ res = Exc StopException
  ∨ (reset_button {| chat_input := Some "Where to?"; reset_button := true |} = true
     ∧ (res = Exc RerunException
        ∨ ∃ e, reset_conversation_reply failing_remote = inl e
               ∧ res = Exc (PyException e))).
Proof.
  apply (only_a_failed_reset_escapes sample_environ
           {| chat_input := Some "Where to?"; reset_button := true |} failing_remote
           (World (session [] "conv_1")
              (Some ({| endpoint := "https://project.example.net" |}, sample_agent)) [])
           (script sample_environ
              {| chat_input := Some "Where to?"; reset_button := true |} failing_remote
              (World (session [] "conv_1")
                 (Some ({| endpoint := "https://project.example.net" |}, sample_agent))
                 [])).1
           (Exc (PyException "503 Service Unavailable"))).
  vm_compute. reflexivity.
Defined.
